(** * process-scrape-jobs: the dispatch handler and its eligible-jobs query

    A shallow embedding of

    - [supabase/functions/process-scrape-jobs/index.ts], the edge function
      that fetches the undone scrape jobs, submits each of them to the Flask
      server and marks the accepted ones as ongoing;
    - [supabase/migrations/CreateGetUndoneScrapeJobs.sql], the SQL function
      [get_undone_scrape_jobs] the handler calls.

    The handler talks to three collaborators that are not part of the
    repository: the Deno runtime (environment, clock, [fetch]), the
    supabase-js client and the Flask server.  Their answers are the fields of
    a [World]; every answer may be a thrown exception.  The handler itself is
    written in a state-and-exception monad whose state holds the store, the
    log of the calls that left the function, and the two arrays the loop
    fills.  Console output is left out: nothing reads it.  Response bodies
    are kept as the objects handed to [JSON.stringify]. *)

From Stdlib Require Import String List ZArith Bool Lia.
From Stdlib Require Import Permutation Sorted.
From Stdlib Require DecimalString.
Import ListNotations.

Local Open Scope string_scope.
Local Open Scope Z_scope.

Set Warnings "-register-all".

(* ------------------------------------------------------------------ *)
(** * JavaScript values the handler inspects *)

Module Js.

(** A value produced by [JSON.parse].  Numbers are kept at their integer
    values; the embedding is exact for the integers a double holds exactly
    (see [exact_numbers]), and has no value for a number with a fraction. *)
Inductive Json : Type :=
| JNull
| JBool (b : bool)
| JNum (n : Z)
| JStr (s : string)
| JArr (items : list Json)
| JObj (fields : list (string * Json)).

(** Anything that can be thrown and caught: the handler only ever reads
    [.message] of what it catches. *)
Record Error : Type := mkError { message : string }.

(** A call either throws or returns. *)
Definition Outcome (A : Type) : Type := (Error + A)%type.

(** The decimal digits of an integer.  This is what [String(n)] gives for
    every integer a double holds exactly, that is up to 2^53 in magnitude -
    HTTP status codes among them; beyond that JavaScript rounds, and from
    1e21 on prints an exponent, which this function does not follow. *)
Definition number_to_string (n : Z) : string :=
  DecimalString.NilZero.string_of_int (Z.to_int n).


Definition length_to_string (n : nat) : string :=
  DecimalString.NilZero.string_of_uint (Nat.to_uint n).

(** [!!x] for a value read from the environment: [undefined] and the empty
    string are falsy. *)
Definition truthy_env (x : option string) : bool :=
  match x with
  | None => false
  | Some s => negb (s =? "")%string
  end.

(** [!!x] for an optional JSON value ([None] is [undefined]). *)
Definition truthy (x : option Json) : bool :=
  match x with
  | None => false
  | Some JNull => false
  | Some (JBool b) => b
  | Some (JNum n) => negb (n =? 0)
  | Some (JStr s) => negb (s =? "")%string
  | Some (JArr _) => true
  | Some (JObj _) => true
  end.

(** Own-property lookup on an object built by [JSON.parse]: of two fields
    with the same key the later one wins. *)
Fixpoint lookup (k : string) (fields : list (string * Json)) : option Json :=
  match fields with
  | [] => None
  | (k', v) :: rest =>
      match lookup k rest with
      | Some v' => Some v'
      | None => if (k' =? k)%string then Some v else None
      end
  end.

Definition null_property_error (k : string) : Error :=
  mkError ("Cannot read properties of null (reading '" ++ k ++ "')").

(** [v.k]: a [TypeError] on [null], the field on an object, [undefined] on
    every other parsed value (none of the names read here is inherited). *)
Definition get_prop (v : Json) (k : string) : Outcome (option Json) :=
  match v with
  | JNull => inl (null_property_error k)
  | JObj fields => inr (lookup k fields)
  | _ => inr None
  end.

Fixpoint join (sep : string) (l : list string) : string :=
  match l with
  | [] => ""
  | [s] => s
  | s :: rest => s ++ sep ++ join sep rest
  end.

Definition not_primitive_error : Error :=
  mkError "Cannot convert object to primitive value".

(** [String(v)], as a template literal applies it.  An array joins its
    elements with commas, [null] counting as the empty string.  An object
    built by [JSON.parse] gives "[object Object]" through the inherited
    [toString], unless it has a member of that name itself: that member is
    not a function, [valueOf] does not give a primitive either, and the
    conversion throws a [TypeError]. *)
Fixpoint json_to_string (v : Json) : Outcome string :=
  match v with
  | JNull => inr "null"
  | JBool true => inr "true"
  | JBool false => inr "false"
  | JNum n => inr (number_to_string n)
  | JStr s => inr s
  | JArr items =>
      match (fix elements (l : list Json) : Outcome (list string) :=
               match l with
               | [] => inr []
               | x :: rest =>
                   match match x with
                         | JNull => inr ""
                         | _ => json_to_string x
                         end with
                   | inl e => inl e
                   | inr s =>
                       match elements rest with
                       | inl e => inl e
                       | inr ss => inr (s :: ss)
                       end
                   end
               end) items with
      | inl e => inl e
      | inr ss => inr (join "," ss)
      end
  | JObj fields =>
      match lookup "toString" fields with
      | Some _ => inl not_primitive_error
      | None => inr "[object Object]"
      end
  end.

Definition to_string (x : option Json) : Outcome string :=
  match x with
  | None => inr "undefined"
  | Some v => json_to_string v
  end.




End Js.

Import Js.

(* ------------------------------------------------------------------ *)
(** * The job store *)

Module Store.

Definition uuid := string.
Definition timestamptz := Z.

(** The two relations.  Their declarations are not in the repository; the
    columns are the ones the query and the handler name. *)
Record scrape_jobs_row : Type := mkJobRow {
  sj_id : uuid;
  sj_profile_id : uuid;
  sj_scraper_engine : string;
  sj_created_at : timestamptz;
  sj_status : string
}.

Record scrape_job_parts_row : Type := mkPartRow {
  sjp_id : uuid;
  sjp_job_id : uuid;
  sjp_postcode : option string;
  sjp_keyword : option string;
  sjp_city : option string;
  sjp_state : option string;
  sjp_country : option string;
  sjp_status : string
}.

Record DB : Type := mkDB {
  scrape_jobs : list scrape_jobs_row;
  scrape_job_parts : list scrape_job_parts_row
}.

(** What [json_build_object] makes of one part. *)
Record part_object : Type := mkPartObject {
  po_part_id : uuid;
  po_postcode : option string;
  po_keyword : option string;
  po_city : option string;
  po_state : option string;
  po_country : option string
}.

(** One row of [RETURNS TABLE (...)]. *)
Record undone_row : Type := mkUndoneRow {
  ur_job_id : uuid;
  ur_profile_id : uuid;
  ur_scraper_engine : string;
  ur_created_at : timestamptz;
  ur_job_parts : list part_object
}.

Definition json_build_object (sjp : scrape_job_parts_row) : part_object :=
  mkPartObject (sjp_id sjp) (sjp_postcode sjp) (sjp_keyword sjp)
               (sjp_city sjp) (sjp_state sjp) (sjp_country sjp).

(** [FROM scrape_jobs sj JOIN scrape_job_parts sjp ON sj.id = sjp.job_id] *)
Definition join_rows (db : DB) : list (scrape_jobs_row * scrape_job_parts_row) :=
  flat_map (fun sj =>
              map (fun sjp => (sj, sjp))
                  (filter (fun sjp => (sj_id sj =? sjp_job_id sjp)%string)
                          (scrape_job_parts db)))
           (scrape_jobs db).

(** [WHERE sj.status = 'undone' AND sjp.status = 'undone'] *)
Definition where_undone (r : scrape_jobs_row * scrape_job_parts_row) : bool :=
  (sj_status (fst r) =? "undone")%string && (sjp_status (snd r) =? "undone")%string.

(** [GROUP BY sj.id, sj.profile_id, sj.scraper_engine, sj.created_at] *)
Definition group_key : Type := (uuid * uuid * string * timestamptz)%type.

Definition key_of (sj : scrape_jobs_row) : group_key :=
  (sj_id sj, sj_profile_id sj, sj_scraper_engine sj, sj_created_at sj).

Definition key_eqb (a b : group_key) : bool :=
  match a, b with
  | (i1, p1, e1, c1), (i2, p2, e2, c2) =>
      (i1 =? i2)%string && (p1 =? p2)%string && (e1 =? e2)%string && (c1 =? c2)
  end.

(** The distinct keys, in the order of their first row. *)
Fixpoint distinct_keys (seen : list group_key) (ks : list group_key) : list group_key :=
  match ks with
  | [] => []
  | k :: rest =>
      if existsb (key_eqb k) seen then distinct_keys seen rest
      else k :: distinct_keys (k :: seen) rest
  end.

(** [json_agg(json_build_object(...))] over the rows of one group. *)
Definition json_agg (k : group_key)
           (rows : list (scrape_jobs_row * scrape_job_parts_row)) : list part_object :=
  map (fun r => json_build_object (snd r))
      (filter (fun r => key_eqb (key_of (fst r)) k) rows).

Definition group_by (rows : list (scrape_jobs_row * scrape_job_parts_row))
  : list undone_row :=
  map (fun k => match k with
                | (i, p, e, c) => mkUndoneRow i p e c (json_agg k rows)
                end)
      (distinct_keys [] (map (fun r => key_of (fst r)) rows)).

(** [ORDER BY sj.created_at ASC], as an insertion sort.  SQL leaves the
    order among rows of equal [created_at] open; the one this function
    produces is the model's, and nothing is stated about it. *)
Fixpoint insert_row (r : undone_row) (l : list undone_row) : list undone_row :=
  match l with
  | [] => [r]
  | x :: rest =>
      if ur_created_at r <? ur_created_at x then r :: x :: rest
      else x :: insert_row r rest
  end.

Fixpoint order_by_created_at (l : list undone_row) : list undone_row :=
  match l with
  | [] => []
  | r :: rest => insert_row r (order_by_created_at rest)
  end.

Definition get_undone_scrape_jobs (db : DB) : list undone_row :=
  order_by_created_at (group_by (filter where_undone (join_rows db))).

(** [SET status = ...] on one row of either relation. *)
Definition with_job_status (status : string) (sj : scrape_jobs_row) : scrape_jobs_row :=
  mkJobRow (sj_id sj) (sj_profile_id sj) (sj_scraper_engine sj) (sj_created_at sj) status.

Definition with_part_status (status : string) (sjp : scrape_job_parts_row)
  : scrape_job_parts_row :=
  mkPartRow (sjp_id sjp) (sjp_job_id sjp) (sjp_postcode sjp) (sjp_keyword sjp)
            (sjp_city sjp) (sjp_state sjp) (sjp_country sjp) status.

(** [.from("scrape_jobs").update({ status }).eq("id", id)] *)
Definition update_jobs_status (status : string) (id : uuid) (db : DB) : DB :=
  mkDB (map (fun sj => if (sj_id sj =? id)%string then with_job_status status sj else sj)
            (scrape_jobs db))
       (scrape_job_parts db).

(** [.from("scrape_job_parts").update({ status }).eq("job_id", id)] *)
Definition update_parts_status (status : string) (job_id : uuid) (db : DB) : DB :=
  mkDB (scrape_jobs db)
       (map (fun sjp => if (sjp_job_id sjp =? job_id)%string
                        then with_part_status status sjp else sjp)
            (scrape_job_parts db)).

(** A filtered update as the client sends it: relation, new status, and
    the one equality filter.  The handler sends the two shapes above; any
    other leaves the store as it is. *)
Definition apply_update (table status column value : string) (db : DB) : DB :=
  if (table =? "scrape_jobs")%string && (column =? "id")%string
  then update_jobs_status status value db
  else if (table =? "scrape_job_parts")%string && (column =? "job_id")%string
  then update_parts_status status value db
  else db.

(** The grouping columns of a returned row. *)
Definition row_key (r : undone_row) : group_key :=
  (ur_job_id r, ur_profile_id r, ur_scraper_engine r, ur_created_at r).

(** The reading of the batch under which a job is returned when its own
    status is undone and every one of its parts is undone. *)
Definition every_part_undone (db : DB) (sj : scrape_jobs_row) : bool :=
  forallb (fun sjp => negb (sj_id sj =? sjp_job_id sjp)%string
                      || (sjp_status sjp =? "undone")%string)
          (scrape_job_parts db).

Definition eligible_as_stated (db : DB) (sj : scrape_jobs_row) : bool :=
  (sj_status sj =? "undone")%string && every_part_undone db sj.

(** The parts of a job, whatever their status. *)
Definition parts_of (db : DB) (id : uuid) : list scrape_job_parts_row :=
  filter (fun sjp => (sjp_job_id sjp =? id)%string) (scrape_job_parts db).

(** [a] comes no later than [b]. *)
Definition created_at_le (a b : undone_row) : Prop :=
  ur_created_at a <= ur_created_at b.

End Store.

Import Store.

(* ------------------------------------------------------------------ *)
(** * The handler's data *)

(** [interface JobPart] *)
Record JobPart : Type := mkJobPart {
  part_id : string;
  postcode : option string;
  keyword : option string;
  city : option string;
  state : option string;
  country : option string
}.

(** [interface ScrapeJob]: one row of the rpc's answer as the client
    decodes it. *)
Record ScrapeJob : Type := mkScrapeJob {
  job_id : string;
  profile_id : string;
  scraper_engine : string;
  created_at : string;
  job_parts : list JobPart
}.

(** The object literal [jobData] posted to the Flask server. *)
Record JobData : Type := mkJobData {
  jd_job_id : string;
  jd_profile_id : string;
  jd_scraper_engine : string;
  jd_created_at : string;
  jd_job_parts : list JobPart
}.

(** An entry of [processedJobs]. *)
Record ProcessedEntry : Type := mkProcessed {
  pe_job_id : string;
  pe_flask_response : Json
}.

(** An entry of [failedJobs]. *)
Record FailedEntry : Type := mkFailed {
  fe_job_id : string;
  fe_error : string
}.

(** The [error] member of a supabase-js answer; only its message is read. *)
Record PostgrestError : Type := mkPostgrestError { pg_message : string }.

(** The [{ data, error }] pair [supabase.rpc] resolves to. *)
Record RpcAnswer : Type := mkRpcAnswer {
  rpc_data : option (list ScrapeJob);
  rpc_error : option PostgrestError
}.

(** What [fetch] resolves to: the status line, and what reading the body
    with [.text()] and with [.json()] gives. *)
Record FlaskResponse : Type := mkFlaskResponse {
  fr_status : Z;
  fr_text : Outcome string;
  fr_json : Outcome Json
}.

(** [Response.ok]: the status is in the range 200-299. *)
Definition fr_ok (r : FlaskResponse) : bool :=
  (200 <=? fr_status r) && (fr_status r <=? 299).

(** The calls that leave the function. *)
Inductive Event : Type :=
| EvRpc (fn : string)
| EvFetch (url : string) (method : string) (body : JobData)
| EvUpdate (table : string) (status : string) (column : string) (value : string).

(** The JSON bodies the handler answers with, before [JSON.stringify]. *)
Inductive Body : Type :=
| BodyText (text : string)
| BodyNoJobs (message : string) (timestamp : string)
| BodySummary (success : bool) (message : string)
              (processed_jobs : list ProcessedEntry) (failed_jobs : list FailedEntry)
              (total_found : nat) (timestamp : string)
| BodyError (success : bool) (error : string) (timestamp : string).

Record Response : Type := mkResponse {
  resp_status : Z;
  resp_headers : list (string * string);
  resp_body : Body
}.

Record Request : Type := mkRequest { req_method : string }.

Definition corsHeaders : list (string * string) :=
  [ ("Access-Control-Allow-Origin", "*");
    ("Access-Control-Allow-Headers",
     "authorization, x-client-info, apikey, content-type") ].

Definition jsonHeaders : list (string * string) :=
  corsHeaders ++ [ ("Content-Type", "application/json") ].

(* ------------------------------------------------------------------ *)
(** * The collaborators *)

(** Every answer the outside gives.  The answers to calls may depend on the
    calls made so far. *)
Record World : Type := mkWorld {
  (** [Deno.env.get] *)
  env_get : string -> option string;
  (** [createClient(url, key)]: [Some e] when the constructor throws [e] *)
  createClient : option string -> option string -> option Error;
  (** [supabase.rpc(fn)] *)
  rpc_answer : list Event -> string -> Outcome RpcAnswer;
  (** [fetch(url, { method: "POST", body })] *)
  fetch_answer : list Event -> string -> JobData -> Outcome FlaskResponse;
  (** [supabase.from(table).update({ status }).eq(column, value)]: the
      [error] member of the answer *)
  update_answer : list Event -> string -> string -> string -> string
                  -> Outcome (option PostgrestError);
  (** [new Date().toISOString()] *)
  now : list Event -> string
}.

(* ------------------------------------------------------------------ *)
(** * The monad the handler runs in *)

Record Machine : Type := mkMachine {
  db : DB;
  trace : list Event;
  processedJobs : list ProcessedEntry;
  failedJobs : list FailedEntry
}.

Definition M (A : Type) : Type := Machine -> Outcome A * Machine.

Definition ret {A} (a : A) : M A := fun m => (inr a, m).

Definition throw {A} (e : Error) : M A := fun m => (inl e, m).

Definition bind {A B} (c : M A) (k : A -> M B) : M B :=
  fun m =>
    match c m with
    | (inr a, m') => k a m'
    | (inl e, m') => (inl e, m')
    end.

(** [try { c } catch (e) { h e }]: what [c] did to the state before it threw
    stays done. *)
Definition try_catch {A} (c : M A) (h : Error -> M A) : M A :=
  fun m =>
    match c m with
    | (inr a, m') => (inr a, m')
    | (inl e, m') => h e m'
    end.

Definition lift {A} (o : Outcome A) : M A := fun m => (o, m).

Declare Scope handler_scope.
Delimit Scope handler_scope with handler.
Notation "x <- c ;; k" := (bind c (fun x => k))
  (at level 61, c at next level, right associativity) : handler_scope.
Notation "c ;; k" := (bind c (fun _ => k))
  (at level 61, right associativity) : handler_scope.
Local Open Scope handler_scope.

Definition log (ev : Event) : M unit :=
  fun m => (inr tt, mkMachine (db m) (trace m ++ [ev]) (processedJobs m) (failedJobs m)).

Definition push_processed (p : ProcessedEntry) : M unit :=
  fun m => (inr tt, mkMachine (db m) (trace m) (processedJobs m ++ [p]) (failedJobs m)).

Definition push_failed (f : FailedEntry) : M unit :=
  fun m => (inr tt, mkMachine (db m) (trace m) (processedJobs m) (failedJobs m ++ [f])).

(** [const processedJobs = []; const failedJobs = [];] *)
Definition declare_arrays : M unit :=
  fun m => (inr tt, mkMachine (db m) (trace m) [] []).

Definition write_db (f : DB -> DB) : M unit :=
  fun m => (inr tt, mkMachine (f (db m)) (trace m) (processedJobs m) (failedJobs m)).

Definition get_processed : M (list ProcessedEntry) := fun m => (inr (processedJobs m), m).
Definition get_failed : M (list FailedEntry) := fun m => (inr (failedJobs m), m).

Section Handler.

Variable w : World.

Definition call_rpc (fn : string) : M RpcAnswer :=
  fun m =>
    let answer := rpc_answer w (trace m) fn in
    bind (log (EvRpc fn)) (fun _ => lift answer) m.

Definition call_fetch (url : string) (body : JobData) : M FlaskResponse :=
  fun m =>
    let answer := fetch_answer w (trace m) url body in
    bind (log (EvFetch url "POST" body)) (fun _ => lift answer) m.

(** A filtered update.  The store changes when the call comes back without
    an error. *)
Definition call_update (table status column value : string)
  : M (option PostgrestError) :=
  fun m =>
    let answer := update_answer w (trace m) table status column value in
    bind (log (EvUpdate table status column value))
         (fun _ =>
            match answer with
            | inr None =>
                write_db (apply_update table status column value) ;; ret None
            | other => lift other
            end) m.

Definition timestamp_now : M string := fun m => (inr (now w (trace m)), m).

(** [const jobData = { job_id: job.job_id, ... }] *)
Definition jobData (job : ScrapeJob) : JobData :=
  mkJobData (job_id job) (profile_id job) (scraper_engine job)
            (created_at job) (job_parts job).

(** The template literal [`${flaskServerUrl}/api/jobs/submit`]. *)
Definition submit_url (flaskServerUrl : option string) : string :=
  match flaskServerUrl with
  | Some s => s
  | None => "undefined"
  end ++ "/api/jobs/submit".

(** The body of the per-job [try] block; every [continue] ends it. *)
Definition job_body (flaskServerUrl : option string) (job : ScrapeJob) : M unit :=
  flaskResponse <- call_fetch (submit_url flaskServerUrl) (jobData job) ;;
  if negb (fr_ok flaskResponse) then
    errorText <- lift (fr_text flaskResponse) ;;
    push_failed (mkFailed (job_id job)
                   ("Flask API error (" ++ number_to_string (fr_status flaskResponse)
                      ++ "): " ++ errorText))
  else
    flaskResult <- lift (fr_json flaskResponse) ;;
    success <- lift (get_prop flaskResult "success") ;;
    if negb (truthy success) then
      error <- lift (get_prop flaskResult "error") ;;
      errorText <- lift (to_string error) ;;
      push_failed (mkFailed (job_id job) ("Flask API failure: " ++ errorText))
    else
      updateJobError <- call_update "scrape_jobs" "ongoing" "id" (job_id job) ;;
      match updateJobError with
      | Some e =>
          push_failed (mkFailed (job_id job) ("DB update error: " ++ pg_message e))
      | None =>
          updatePartsError <-
            call_update "scrape_job_parts" "ongoing" "job_id" (job_id job) ;;
          match updatePartsError with
          | Some e =>
              push_failed (mkFailed (job_id job)
                             ("DB parts update error: " ++ pg_message e))
          | None =>
              push_processed (mkProcessed (job_id job) flaskResult)
          end
      end.

(** One turn of [for (const job of jobs) { try { ... } catch (jobError) { ... } }] *)
Definition job_iteration (flaskServerUrl : option string) (job : ScrapeJob) : M unit :=
  try_catch (job_body flaskServerUrl job)
            (fun jobError => push_failed (mkFailed (job_id job) (message jobError))).

Fixpoint process_jobs (flaskServerUrl : option string) (jobs : list ScrapeJob)
  : M unit :=
  match jobs with
  | [] => ret tt
  | job :: rest =>
      job_iteration flaskServerUrl job ;; process_jobs flaskServerUrl rest
  end.

Definition summary_message (processed failed : nat) : string :=
  "Processed " ++ length_to_string processed ++ " jobs successfully, "
    ++ length_to_string failed ++ " failed".

(** The outer [try] block. *)
Definition pass : M Response :=
  let supabaseUrl := env_get w "SUPABASE_URL" in
  let serviceRoleKey := env_get w "SERVICE_ROLE_KEY" in
  let flaskServerUrl := env_get w "REDIS_URL" in
  if negb (truthy_env serviceRoleKey) then
    throw (mkError "SERVICE_ROLE_KEY environment variable is required")
  else if negb (truthy_env flaskServerUrl) then
    throw (mkError "REDIS_URL environment variable is required")
  else
  match createClient w supabaseUrl serviceRoleKey with
  | Some e => throw e
  | None =>
      answer <- call_rpc "get_undone_scrape_jobs" ;;
      match rpc_error answer with
      | Some queryError => throw (mkError (pg_message queryError))
      | None =>
          match rpc_data answer with
          | None | Some [] =>
              ts <- timestamp_now ;;
              ret (mkResponse 200 jsonHeaders (BodyNoJobs "No undone jobs found" ts))
          | Some jobs =>
              declare_arrays ;;
              process_jobs flaskServerUrl jobs ;;
              processed <- get_processed ;;
              failed <- get_failed ;;
              ts <- timestamp_now ;;
              ret (mkResponse 200 jsonHeaders
                     (BodySummary true
                        (summary_message (length processed) (length failed))
                        processed failed (length jobs) ts))
          end
      end
  end.

(** [serve(async (req) => { ... })] *)
Definition serve (req : Request) : Machine -> Response * Machine :=
  fun m =>
    if (req_method req =? "OPTIONS")%string then
      (mkResponse 200 corsHeaders (BodyText "ok"), m)
    else
      match pass m with
      | (inr response, m') => (response, m')
      | (inl error, m') =>
          (mkResponse 500 jsonHeaders
                      (BodyError false (message error) (now w (trace m'))), m')
      end.

End Handler.

(* ------------------------------------------------------------------ *)
(** * Running one job *)

(** The three calls one job can cause. *)
Definition ev_submit (flaskServerUrl : option string) (job : ScrapeJob) : Event :=
  EvFetch (submit_url flaskServerUrl) "POST" (jobData job).

Definition ev_mark_job (job : ScrapeJob) : Event :=
  EvUpdate "scrape_jobs" "ongoing" "id" (job_id job).

Definition ev_mark_parts (job : ScrapeJob) : Event :=
  EvUpdate "scrape_job_parts" "ongoing" "job_id" (job_id job).

(** The machine after one more failure has been recorded. *)
Definition with_failure (m : Machine) (f : FailedEntry) : Machine :=
  mkMachine (db m) (trace m) (processedJobs m) (failedJobs m ++ [f]).

(** What a turn of the loop added to the two arrays. *)
Inductive one_outcome (job : ScrapeJob) (m m' : Machine) : Prop :=
| outcome_succeeded (p : ProcessedEntry) :
    processedJobs m' = (processedJobs m ++ [p])%list ->
    failedJobs m' = failedJobs m ->
    pe_job_id p = job_id job ->
    one_outcome job m m'
| outcome_failed (f : FailedEntry) :
    processedJobs m' = processedJobs m ->
    failedJobs m' = (failedJobs m ++ [f])%list ->
    fe_job_id f = job_id job ->
    one_outcome job m m'.

Ltac unfold_handler :=
  unfold job_iteration, job_body, try_catch, call_fetch, call_update, call_rpc,
    timestamp_now, get_processed, get_failed, declare_arrays, write_db,
    push_failed, push_processed, log, lift, throw, ret, bind, with_failure,
    ev_submit, ev_mark_job, ev_mark_parts in *;
  cbn [db trace processedJobs failedJobs fst snd] in *.

(* ------------------------------------------------------------------ *)
(** * Running a pass *)

(** The configuration let the handler build its client. *)
Definition client_ready (w : World) : Prop :=
  truthy_env (env_get w "SERVICE_ROLE_KEY") = true
  /\ truthy_env (env_get w "REDIS_URL") = true
  /\ createClient w (env_get w "SUPABASE_URL") (env_get w "SERVICE_ROLE_KEY") = None.

(** What the handler relies on for the store endpoint, which it does not
    look at itself: the client constructor ([createClient] of supabase-js)
    throws when it is given no URL, or an empty one. *)
Definition rejects_missing_url (w : World) : Prop :=
  forall url key, truthy_env url = false -> exists e, createClient w url key = Some e.

Definition ev_fetch_batch : Event := EvRpc "get_undone_scrape_jobs".

(** The machine once the batch has been asked for. *)
Definition asked (m : Machine) : Machine :=
  mkMachine (db m) (trace m ++ [ev_fetch_batch]) (processedJobs m) (failedJobs m).

(** The machine at the top of the loop. *)
Definition at_loop (m : Machine) : Machine :=
  mkMachine (db m) (trace m ++ [ev_fetch_batch]) [] [].

(** The calls made since [m]. *)
Definition new_events (m m' : Machine) : list Event :=
  skipn (length (trace m)) (trace m').

(** The [success] member of a body, when it has one. *)
Definition body_success (b : Body) : option bool :=
  match b with
  | BodySummary s _ _ _ _ _ => Some s
  | BodyError s _ _ => Some s
  | BodyText _ | BodyNoJobs _ _ => None
  end.

Definition summary_response (w : World) (total : nat) (m : Machine) : Response :=
  mkResponse 200 jsonHeaders
    (BodySummary true
       (summary_message (length (processedJobs m)) (length (failedJobs m)))
       (processedJobs m) (failedJobs m) total (now w (trace m))).

Definition error_response (w : World) (msg : string) (m : Machine) : Response :=
  mkResponse 500 jsonHeaders (BodyError false msg (now w (trace m))).


(** What a failed update leaves in [failedJobs]: the message of what was
    thrown, or the prefixed message of the error that came back. *)
Definition update_failure (prefix : string) (answer : Outcome (option PostgrestError))
  : string :=
  match answer with
  | inl e => message e
  | inr (Some e) => prefix ++ pg_message e
  | inr None => ""
  end.

(* ------------------------------------------------------------------ *)
(** * Sample jobs, answers and worlds *)

Definition full_env (k : string) : option string :=
  if (k =? "SUPABASE_URL")%string then Some "https://store.example"
  else if (k =? "SERVICE_ROLE_KEY")%string then Some "service-key"
  else if (k =? "REDIS_URL")%string then Some "http://flask.example"
  else None.

Definition env_without (missing : string) (k : string) : option string :=
  if (k =? missing)%string then None else full_env k.

(** A world whose answers do not depend on the calls made before. *)
Definition steady_world (env : string -> option string) (client : option Error)
           (batch : option (list ScrapeJob))
           (flask : JobData -> Outcome FlaskResponse)
           (update : string -> Outcome (option PostgrestError)) : World :=
  mkWorld env (fun _ _ => client)
          (fun _ _ => inr (mkRpcAnswer batch None))
          (fun _ _ body => flask body)
          (fun _ table _ _ _ => update table)
          (fun _ => "2024-05-01T12:00:00.000Z").

Definition jobX : ScrapeJob :=
  mkScrapeJob "job-x" "profile-1" "google_maps" "2024-05-01T10:00:00+00:00"
    [ mkJobPart "part-x1" (Some "SW1A 1AA") (Some "plumber") (Some "London") None
                (Some "UK");
      mkJobPart "part-x2" (Some "M1 1AE") (Some "plumber") (Some "Manchester") None
                (Some "UK") ].

Definition jobY : ScrapeJob :=
  mkScrapeJob "job-y" "profile-2" "google_maps" "2024-05-01T11:00:00+00:00"
    [ mkJobPart "part-y1" None (Some "dentist") (Some "Leeds") None (Some "UK") ].

Definition accepted : FlaskResponse :=
  mkFlaskResponse 200 (inr "accepted")
    (inr (JObj [("success", JBool true); ("queued", JNum 1)])).


Definition overloaded : FlaskResponse :=
  mkFlaskResponse 503 (inr "overloaded")
    (inl (mkError "Unexpected token 'o', is not valid JSON")).

Definition network_error : Error := mkError "error sending request: connection refused".

Definition updates_pass (table : string) : Outcome (option PostgrestError) := inr None.

Definition jobs_update_denied (table : string) : Outcome (option PostgrestError) :=
  if (table =? "scrape_jobs")%string
  then inr (Some (mkPostgrestError "permission denied for table scrape_jobs"))
  else inr None.

Definition post : Request := mkRequest "POST".

Definition empty_db : DB := mkDB [] [].

Definition boot (d : DB) : Machine := mkMachine d [] [] [].

(** jobX's call throws, everything about jobY goes through. *)
Definition world_x_throws : World :=
  steady_world full_env None (Some [jobX; jobY])
    (fun body => if (jd_job_id body =? "job-x")%string
                 then inl network_error else inr accepted)
    updates_pass.


Definition world_overloaded : World :=
  steady_world full_env None (Some [jobX]) (fun _ => inr overloaded) updates_pass.

Definition world_update_denied : World :=
  steady_world full_env None (Some [jobX]) (fun _ => inr accepted) jobs_update_denied.

Definition world_empty_batch : World :=
  steady_world full_env None (Some []) (fun _ => inr accepted) updates_pass.

(** The client constructor as the handler meets it: supabase-js throws on a
    missing (or empty) URL or key before it builds anything. *)
Definition checking_client (url key : option string) : option Error :=
  if negb (truthy_env url) then Some (mkError "supabaseUrl is required.")
  else if negb (truthy_env key) then Some (mkError "supabaseKey is required.")
  else None.

(** A steady world with that constructor. *)
Definition checked_world (env : string -> option string)
           (batch : option (list ScrapeJob))
           (flask : JobData -> Outcome FlaskResponse)
           (update : string -> Outcome (option PostgrestError)) : World :=
  mkWorld env checking_client
          (fun _ _ => inr (mkRpcAnswer batch None))
          (fun _ _ body => flask body)
          (fun _ table _ _ _ => update table)
          (fun _ => "2024-05-01T12:00:00.000Z").

Definition world_no_flask_url : World :=
  checked_world (env_without "REDIS_URL") (Some [jobX]) (fun _ => inr accepted)
    updates_pass.

(** No store endpoint is configured. *)
Definition world_no_store_url : World :=
  checked_world (env_without "SUPABASE_URL") (Some [jobX]) (fun _ => inr accepted)
    updates_pass.

(** A store where jobX still has one undone part, the other one being done. *)
Definition db_half_done : DB :=
  mkDB [ mkJobRow "job-x" "profile-1" "google_maps" 1714557600000000 "undone";
         mkJobRow "job-y" "profile-2" "google_maps" 1714561200000000 "undone";
         mkJobRow "job-z" "profile-2" "google_maps" 1714550400000000 "undone" ]
       [ mkPartRow "part-x1" "job-x" (Some "SW1A 1AA") (Some "plumber") (Some "London")
                   None (Some "UK") "undone";
         mkPartRow "part-x2" "job-x" (Some "M1 1AE") (Some "plumber")
                   (Some "Manchester") None (Some "UK") "done";
         mkPartRow "part-y1" "job-y" None (Some "dentist") (Some "Leeds") None
                   (Some "UK") "undone" ].

(** A row of the batch as the client hands it to the handler; the store
    renders the timestamp. *)
Definition decode_part (po : part_object) : JobPart :=
  mkJobPart (po_part_id po) (po_postcode po) (po_keyword po) (po_city po)
            (po_state po) (po_country po).

Definition decode_row (render : timestamptz -> string) (r : undone_row) : ScrapeJob :=
  mkScrapeJob (ur_job_id r) (ur_profile_id r) (ur_scraper_engine r)
              (render (ur_created_at r)) (map decode_part (ur_job_parts r)).

Definition sample_render (t : timestamptz) : string :=
  if t =? 1714557600000000 then "2024-05-01T10:00:00+00:00"
  else if t =? 1714561200000000 then "2024-05-01T11:00:00+00:00"
  else "2024-05-01T08:00:00+00:00".

(** The batch the query gives on [db_half_done]. *)
Definition stored_batch : list ScrapeJob :=
  map (decode_row sample_render) (get_undone_scrape_jobs db_half_done).

Definition world_stored : World :=
  steady_world full_env None (Some stored_batch) (fun _ => inr accepted) updates_pass.

(** jobX as that batch carries it: with its undone part only. *)
Definition fetched_jobX : ScrapeJob :=
  mkScrapeJob "job-x" "profile-1" "google_maps" "2024-05-01T10:00:00+00:00"
    [ mkJobPart "part-x1" (Some "SW1A 1AA") (Some "plumber") (Some "London") None
                (Some "UK") ].


(* ------------------------------------------------------------------ *)
(** * Reading a trace and a store *)

(** A submission to the Flask server. *)
Definition is_submission (ev : Event) : bool :=
  match ev with
  | EvFetch _ _ _ => true
  | _ => false
  end.

(** The executor took the job: [fetch] came back in 200-299 with a body that
    parses and whose [success] reads truthy. *)
Definition accepted_by (w : World) (u : option string) (job : ScrapeJob)
           (m : Machine) : Prop :=
  exists r v flag,
    fetch_answer w (trace m) (submit_url u) (jobData job) = inr r
    /\ fr_ok r = true
    /\ fr_json r = inr v
    /\ get_prop v "success" = inr flag
    /\ truthy flag = true.

(** The four ways a turn of the loop can end. *)
Inductive turn_case (w : World) (u : option string) (job : ScrapeJob)
          (m m' : Machine) : Prop :=
| turn_not_accepted :
    ~ accepted_by w u job m ->
    trace m' = (trace m ++ [ev_submit u job])%list ->
    db m' = db m ->
    processedJobs m' = processedJobs m ->
    turn_case w u job m m'
| turn_job_update_failed :
    accepted_by w u job m ->
    trace m' = (trace m ++ [ev_submit u job; ev_mark_job job])%list ->
    db m' = db m ->
    processedJobs m' = processedJobs m ->
    turn_case w u job m m'
| turn_parts_update_failed :
    accepted_by w u job m ->
    trace m' = (trace m ++ [ev_submit u job; ev_mark_job job; ev_mark_parts job])%list ->
    db m' = update_jobs_status "ongoing" (job_id job) (db m) ->
    processedJobs m' = processedJobs m ->
    turn_case w u job m m'
| turn_done (v : Json) :
    accepted_by w u job m ->
    trace m' = (trace m ++ [ev_submit u job; ev_mark_job job; ev_mark_parts job])%list ->
    db m' = update_parts_status "ongoing" (job_id job)
              (update_jobs_status "ongoing" (job_id job) (db m)) ->
    processedJobs m' = (processedJobs m ++ [mkProcessed (job_id job) v])%list ->
    turn_case w u job m m'.

(** A row after a pass: as it was, or set to ongoing because its job was in
    the batch. *)
Definition job_row_marked (ids : list string) (a b : scrape_jobs_row) : Prop :=
  b = a \/ (b = with_job_status "ongoing" a /\ In (sj_id a) ids).

Definition part_row_marked (ids : list string) (a b : scrape_job_parts_row) : Prop :=
  b = a \/ (b = with_part_status "ongoing" a /\ In (sjp_job_id a) ids).

(** The store [d'] is the store [d] with some rows of the jobs [ids] set to
    ongoing, row for row, and nothing else changed. *)
Definition marked_only (ids : list string) (d d' : DB) : Prop :=
  Forall2 (job_row_marked ids) (scrape_jobs d) (scrape_jobs d')
  /\ Forall2 (part_row_marked ids) (scrape_job_parts d) (scrape_job_parts d').

(** The job identifiers of the batch an rpc answer carries. *)
Definition batch_ids (answer : Outcome RpcAnswer) : list string :=
  match answer with
  | inr (mkRpcAnswer (Some jobs) None) => map job_id jobs
  | _ => []
  end.

(** The job identifier among the grouping columns. *)
Definition key_id (k : group_key) : uuid := fst (fst (fst k)).

(** The rows the query groups: joined and filtered. *)
Definition undone_rows (db : DB) : list (scrape_jobs_row * scrape_job_parts_row) :=
  filter where_undone (join_rows db).

(** The two updates of a successful turn, one after the other. *)
Definition mark_ongoing (id : uuid) (d : DB) : DB :=
  update_parts_status "ongoing" id (update_jobs_status "ongoing" id d).

(** The update a pass may send for a job of [jobs]. *)
Definition marks_a_job_of (jobs : list ScrapeJob) (ev : Event) : Prop :=
  exists job, In job jobs /\ (ev = ev_mark_job job \/ ev = ev_mark_parts job).

(** The undone parts of job [id], as [json_build_object] renders them. *)
Definition undone_parts_of (db : DB) (id : uuid) : list part_object :=
  map json_build_object
      (filter (fun sjp => (id =? sjp_job_id sjp)%string
                          && (sjp_status sjp =? "undone")%string)
              (scrape_job_parts db)).

(* ------------------------------------------------------------------ *)
(** * More sample worlds *)

Definition parts_update_denied (table : string) : Outcome (option PostgrestError) :=
  if (table =? "scrape_job_parts")%string
  then inr (Some (mkPostgrestError "permission denied for table scrape_job_parts"))
  else inr None.

Definition world_parts_denied : World :=
  steady_world full_env None (Some [fetched_jobX]) (fun _ => inr accepted)
    parts_update_denied.

Definition world_accepting_x : World :=
  steady_world full_env None (Some [fetched_jobX]) (fun _ => inr accepted) updates_pass.

(** The batch fetch comes back with an error. *)
Definition world_fetch_denied : World :=
  mkWorld full_env (fun _ _ => None)
          (fun _ _ => inr (mkRpcAnswer None
                             (Some (mkPostgrestError
                                      "function get_undone_scrape_jobs() does not exist"))))
          (fun _ _ _ => inr accepted)
          (fun _ _ _ _ _ => inr None)
          (fun _ => "2024-05-01T12:00:00.000Z").

(** A 200 answer whose body is not JSON. *)
Definition html_page : FlaskResponse :=
  mkFlaskResponse 200 (inr "<html>Bad gateway</html>")
    (inl (mkError "Unexpected token '<', is not valid JSON")).

Definition world_html : World :=
  steady_world full_env None (Some [jobX]) (fun _ => inr html_page) updates_pass.

(** Nothing is configured and every call would throw. *)
Definition world_down : World :=
  mkWorld (fun _ => None) (fun _ _ => Some network_error)
          (fun _ _ => inl network_error)
          (fun _ _ _ => inl network_error)
          (fun _ _ _ _ _ => inl network_error)
          (fun _ => "2024-05-01T12:00:00.000Z").

(** Two lists woven into a third: each keeps its order. *)
Inductive woven {A : Type} : list A -> list A -> list A -> Prop :=
| woven_nil : woven [] [] []
| woven_left (x : A) (l r all : list A) :
    woven l r all -> woven (x :: l) r (x :: all)
| woven_right (x : A) (l r all : list A) :
    woven l r all -> woven l (x :: r) (x :: all).

(** A world where the executor takes every job and every update goes
    through. *)
Definition always_accepts (w : World) : Prop :=
  (forall t url body,
      exists r v flag,
        fetch_answer w t url body = inr r
        /\ fr_ok r = true
        /\ fr_json r = inr v
        /\ get_prop v "success" = inr flag
        /\ truthy flag = true)
  /\ (forall t table status column value,
         update_answer w t table status column value = inr None).



(** [client_ready], decided. *)
Definition client_readyb (w : World) : bool :=
  truthy_env (env_get w "SERVICE_ROLE_KEY")
  && truthy_env (env_get w "REDIS_URL")
  && match createClient w (env_get w "SUPABASE_URL") (env_get w "SERVICE_ROLE_KEY") with
     | None => true
     | Some _ => false
     end.

(** The job identifiers of the batch a request really fetched: none for a
    preflight request, none when the configuration stopped the pass before
    the fetch, else those of the answer to the fetch. *)
Definition fetched_ids (w : World) (req : Request) (m : Machine) : list string :=
  if (req_method req =? "OPTIONS")%string then []
  else if client_readyb w
       then batch_ids (rpc_answer w (trace m) "get_undone_scrape_jobs")
       else [].

(* ------------------------------------------------------------------ *)
(** * Facts about one job and about the loop *)

(** Closes a case of a turn that ends with one more failure recorded. *)
Ltac turn_failed :=
  eexists; split; [reflexivity | eapply outcome_failed; reflexivity].

Section JobFacts.

Variable w : World.
Variable flaskServerUrl : option string.

Lemma get_prop_defined (v : Json) (k k' : string) (x : option Json) :
  get_prop v k = inr x -> exists y, get_prop v k' = inr y.
Proof.
  destruct v; cbn; intros H; try discriminate; eauto.
Qed.

(** A turn of the loop never throws and leaves exactly one entry. *)
Lemma job_iteration_returns (job : ScrapeJob) (m : Machine) :
  exists m', job_iteration w flaskServerUrl job m = (inr tt, m')
             /\ one_outcome job m m'.
Proof.
  unfold_handler.
  destruct (fetch_answer w (trace m) (submit_url flaskServerUrl) (jobData job))
    as [e | r]; cbn; [turn_failed |].
  destruct (fr_ok r); cbn;
    [| destruct (fr_text r) as [e | t]; cbn; turn_failed].
  destruct (fr_json r) as [e | v]; cbn; [turn_failed |].
  destruct (get_prop v "success") as [e | flag] eqn:Hflag; cbn; [turn_failed |].
  destruct (truthy flag); cbn.
  2:{ destruct (get_prop_defined v "success" "error" flag Hflag) as [y Hy].
      rewrite Hy. cbn. destruct (to_string y); cbn; turn_failed. }
  destruct (update_answer w _ "scrape_jobs" "ongoing" "id" (job_id job))
    as [e | [e | ]]; cbn; try turn_failed.
  destruct (update_answer w _ "scrape_job_parts" "ongoing" "job_id" (job_id job))
    as [e | [e | ]]; cbn; try turn_failed.
  eexists; split; [reflexivity | eapply outcome_succeeded; reflexivity].
Qed.

(** What the [catch] clause does with whatever the [try] block threw. *)
Lemma job_iteration_catches (job : ScrapeJob) (m m1 : Machine) (e : Error) :
  job_body w flaskServerUrl job m = (inl e, m1) ->
  job_iteration w flaskServerUrl job m
  = (inr tt, with_failure m1 (mkFailed (job_id job) (message e))).
Proof.
  intros H. unfold job_iteration, try_catch. rewrite H. reflexivity.
Qed.

Lemma process_jobs_cons (job : ScrapeJob) (rest : list ScrapeJob) (m m1 : Machine) :
  job_iteration w flaskServerUrl job m = (inr tt, m1) ->
  process_jobs w flaskServerUrl (job :: rest) m
  = process_jobs w flaskServerUrl rest m1.
Proof.
  intros H. cbn [process_jobs]. unfold bind. rewrite H. reflexivity.
Qed.

(** The loop visits every job: it never throws, and what it adds to the two
    arrays is one entry per job. *)
Lemma process_jobs_returns (jobs : list ScrapeJob) :
  forall m, exists m' ps fs,
    process_jobs w flaskServerUrl jobs m = (inr tt, m')
    /\ processedJobs m' = (processedJobs m ++ ps)%list
    /\ failedJobs m' = (failedJobs m ++ fs)%list
    /\ (length ps + length fs = length jobs)%nat
    /\ Permutation (map pe_job_id ps ++ map fe_job_id fs)%list (map job_id jobs).
Proof.
  induction jobs as [| job rest IH]; intros m.
  - exists m, [], []. cbn. rewrite !app_nil_r. repeat split; constructor.
  - destruct (job_iteration_returns job m) as (m1 & Hrun & Hone).
    destruct (IH m1) as (m' & ps & fs & Hrest & Hp & Hf & Hlen & Hperm).
    rewrite (process_jobs_cons job rest m m1 Hrun).
    destruct Hone as [p Hp1 Hf1 Hid | f Hp1 Hf1 Hid].
    + exists m', (p :: ps), fs. rewrite Hrest, Hp, Hf, Hp1, Hf1, <- app_assoc.
      cbn. rewrite Hid. repeat split; auto.
    + exists m', ps, (f :: fs). rewrite Hrest, Hp, Hf, Hp1, Hf1, <- app_assoc.
      cbn. rewrite Hid. repeat split; [lia |].
      apply Permutation_sym, Permutation_cons_app, Permutation_sym. exact Hperm.
Qed.

(** The loop over two batches is the loop over the first, then the loop
    over the second from where the first stopped. *)
Lemma process_jobs_app (pre post : list ScrapeJob) (m : Machine) :
  process_jobs w flaskServerUrl (pre ++ post)%list m
  = process_jobs w flaskServerUrl post
      (snd (process_jobs w flaskServerUrl pre m)).
Proof.
  revert m. induction pre as [| job rest IH]; intros m; [reflexivity |].
  destruct (job_iteration_returns job m) as (m1 & Hrun & _).
  cbn [app]. rewrite !(process_jobs_cons job _ m m1 Hrun). apply IH.
Qed.

End JobFacts.

(* ------------------------------------------------------------------ *)
(** * The paths through one turn of the loop *)

Section JobPaths.

Variable w : World.
Variable flaskServerUrl : option string.
Variable job : ScrapeJob.
Variable m : Machine.

(** [fetch] itself throws: the catch clause records the exception. *)
Lemma iteration_fetch_throws (e : Error) :
  fetch_answer w (trace m) (submit_url flaskServerUrl) (jobData job) = inl e ->
  job_iteration w flaskServerUrl job m
  = (inr tt, mkMachine (db m) (trace m ++ [ev_submit flaskServerUrl job]) (processedJobs m)
               (failedJobs m ++ [mkFailed (job_id job) (message e)])).
Proof.
  intros H. unfold_handler. rewrite H. reflexivity.
Qed.

(** The server answers outside 200-299 and the body can be read. *)
Lemma iteration_transport_failure (r : FlaskResponse) (errorText : string) :
  fetch_answer w (trace m) (submit_url flaskServerUrl) (jobData job) = inr r ->
  fr_ok r = false ->
  fr_text r = inr errorText ->
  job_iteration w flaskServerUrl job m
  = (inr tt, mkMachine (db m) (trace m ++ [ev_submit flaskServerUrl job]) (processedJobs m)
               (failedJobs m
                  ++ [mkFailed (job_id job)
                        ("Flask API error (" ++ number_to_string (fr_status r)
                           ++ "): " ++ errorText)])).
Proof.
  intros H Hok Ht. unfold_handler. rewrite H. cbn. rewrite Hok. cbn.
  rewrite Ht. reflexivity.
Qed.



(** The server accepted, the job-level update did not go through. *)
Lemma iteration_job_update_fails (r : FlaskResponse) (v : Json) (flag : option Json)
      (answer : Outcome (option PostgrestError)) :
  fetch_answer w (trace m) (submit_url flaskServerUrl) (jobData job) = inr r ->
  fr_ok r = true ->
  fr_json r = inr v ->
  get_prop v "success" = inr flag ->
  truthy flag = true ->
  update_answer w (trace m ++ [ev_submit flaskServerUrl job])
                "scrape_jobs" "ongoing" "id" (job_id job) = answer ->
  answer <> inr None ->
  job_iteration w flaskServerUrl job m
  = (inr tt, mkMachine (db m)
               (trace m ++ [ev_submit flaskServerUrl job; ev_mark_job job])
               (processedJobs m)
               (failedJobs m
                  ++ [mkFailed (job_id job) (update_failure "DB update error: " answer)])).
Proof.
  intros H Hok Hv Hflag Htruthy Hupd Hfail. unfold_handler.
  rewrite H. cbn. rewrite Hok. cbn. rewrite Hv. cbn. rewrite Hflag. cbn.
  rewrite Htruthy. cbn. rewrite Hupd.
  destruct answer as [e | [e | ]]; cbn; rewrite <- ?app_assoc;
    [reflexivity | reflexivity | congruence].
Qed.

(** The server accepted and the job-level update went through: the parts
    update is sent, and its answer decides the outcome. *)
Lemma iteration_job_marked (r : FlaskResponse) (v : Json) (flag : option Json)
      (answer : Outcome (option PostgrestError)) :
  fetch_answer w (trace m) (submit_url flaskServerUrl) (jobData job) = inr r ->
  fr_ok r = true ->
  fr_json r = inr v ->
  get_prop v "success" = inr flag ->
  truthy flag = true ->
  update_answer w (trace m ++ [ev_submit flaskServerUrl job])
                "scrape_jobs" "ongoing" "id" (job_id job) = inr None ->
  update_answer w (trace m ++ [ev_submit flaskServerUrl job; ev_mark_job job])
                "scrape_job_parts" "ongoing" "job_id" (job_id job) = answer ->
  job_iteration w flaskServerUrl job m
  = (inr tt,
     match answer with
     | inr None =>
         mkMachine (update_parts_status "ongoing" (job_id job)
                      (update_jobs_status "ongoing" (job_id job) (db m)))
                   (trace m ++ [ev_submit flaskServerUrl job; ev_mark_job job; ev_mark_parts job])
                   (processedJobs m ++ [mkProcessed (job_id job) v])
                   (failedJobs m)
     | _ =>
         mkMachine (update_jobs_status "ongoing" (job_id job) (db m))
                   (trace m ++ [ev_submit flaskServerUrl job; ev_mark_job job; ev_mark_parts job])
                   (processedJobs m)
                   (failedJobs m
                      ++ [mkFailed (job_id job)
                            (update_failure "DB parts update error: " answer)])
     end).
Proof.
  intros H Hok Hv Hflag Htruthy Hjob Hparts. unfold_handler.
  rewrite H. cbn. rewrite Hok. cbn. rewrite Hv. cbn. rewrite Hflag. cbn.
  rewrite Htruthy. cbn. rewrite Hjob. cbn. rewrite <- !app_assoc. cbn [app].
  rewrite Hparts.
  destruct answer as [e | [e | ]]; reflexivity.
Qed.

End JobPaths.


(** Closes a case of a turn: the machine it ends in is known, what is left is
    to read the calls off its trace. *)
Ltac turn_ends Hrun :=
  injection Hrun as <-; cbn [trace]; rewrite <- ?app_assoc; cbn [app]; auto.

(** The calls of one turn: the submission alone; the submission and the
    job-level update, which failed; or these two and the parts update, the
    job-level update having gone through. *)
Lemma job_iteration_calls (w : World) (u : option string) (job : ScrapeJob)
      (m m' : Machine) :
  job_iteration w u job m = (inr tt, m') ->
  trace m' = (trace m ++ [ev_submit u job])%list
  \/ (trace m' = (trace m ++ [ev_submit u job; ev_mark_job job])%list
      /\ update_answer w (trace m ++ [ev_submit u job])
                       "scrape_jobs" "ongoing" "id" (job_id job) <> inr None)
  \/ (trace m' = (trace m ++ [ev_submit u job; ev_mark_job job; ev_mark_parts job])%list
      /\ update_answer w (trace m ++ [ev_submit u job])
                       "scrape_jobs" "ongoing" "id" (job_id job) = inr None).
Proof.
  unfold_handler.
  destruct (fetch_answer w (trace m) (submit_url u) (jobData job)) as [e | r]; cbn.
  { intros Hrun. turn_ends Hrun. }
  destruct (fr_ok r); cbn.
  2:{ destruct (fr_text r); cbn; intros Hrun; turn_ends Hrun. }
  destruct (fr_json r) as [e | v]; cbn.
  { intros Hrun. turn_ends Hrun. }
  destruct (get_prop v "success") as [e | flag] eqn:Hflag; cbn.
  { intros Hrun. turn_ends Hrun. }
  destruct (truthy flag); cbn.
  2:{ destruct (get_prop_defined v "success" "error" flag Hflag) as [y Hy].
      rewrite Hy. cbn. destruct (to_string y); cbn; intros Hrun; turn_ends Hrun. }
  destruct (update_answer w (trace m ++ [EvFetch (submit_url u) "POST" (jobData job)])
              "scrape_jobs" "ongoing" "id" (job_id job)) as [e | [e | ]]; cbn.
  1,2: intros Hrun; turn_ends Hrun; right; left; split; [reflexivity | discriminate].
  destruct (update_answer w _ "scrape_job_parts" "ongoing" "job_id" (job_id job))
    as [e | [e | ]]; cbn; intros Hrun; turn_ends Hrun.
Qed.


(** The loop only ever adds to the trace. *)
Lemma process_jobs_extends_trace (w : World) (u : option string)
      (jobs : list ScrapeJob) :
  forall m m',
    process_jobs w u jobs m = (inr tt, m') ->
    exists evs, trace m' = (trace m ++ evs)%list.
Proof.
  induction jobs as [| job rest IH]; intros m m' Hrun.
  - injection Hrun as <-. exists []. rewrite app_nil_r. reflexivity.
  - destruct (job_iteration_returns w u job m) as (m1 & Hturn & _).
    rewrite (process_jobs_cons w u job rest m m1 Hturn) in Hrun.
    destruct (IH m1 m' Hrun) as [evs Hevs].
    destruct (job_iteration_calls w u job m m1 Hturn) as [Hn | [[Hn _] | [Hn _]]];
      rewrite Hevs, Hn, <- app_assoc; eauto.
Qed.

(* ------------------------------------------------------------------ *)
(** * Facts about a pass *)

Section PassFacts.

Variable w : World.

Lemma new_events_app (m m' : Machine) (evs : list Event) :
  trace m' = (trace m ++ evs)%list -> new_events m m' = evs.
Proof.
  intros H. unfold new_events. rewrite H.
  rewrite skipn_app, skipn_all, Nat.sub_diag. reflexivity.
Qed.

Lemma serve_runs_pass (req : Request) (m : Machine) :
  req_method req <> "OPTIONS" ->
  serve w req m
  = match pass w m with
    | (inr response, m') => (response, m')
    | (inl error, m') => (error_response w (message error) m', m')
    end.
Proof.
  intros H. unfold serve. apply String.eqb_neq in H. rewrite H. reflexivity.
Qed.

Lemma pass_missing_key (m : Machine) :
  truthy_env (env_get w "SERVICE_ROLE_KEY") = false ->
  pass w m
  = (inl (mkError "SERVICE_ROLE_KEY environment variable is required"), m).
Proof.
  intros H. unfold pass. rewrite H. reflexivity.
Qed.

Lemma pass_missing_flask_url (m : Machine) :
  truthy_env (env_get w "SERVICE_ROLE_KEY") = true ->
  truthy_env (env_get w "REDIS_URL") = false ->
  pass w m = (inl (mkError "REDIS_URL environment variable is required"), m).
Proof.
  intros H1 H2. unfold pass. rewrite H1, H2. reflexivity.
Qed.

Lemma pass_client_throws (m : Machine) (e : Error) :
  truthy_env (env_get w "SERVICE_ROLE_KEY") = true ->
  truthy_env (env_get w "REDIS_URL") = true ->
  createClient w (env_get w "SUPABASE_URL") (env_get w "SERVICE_ROLE_KEY") = Some e ->
  pass w m = (inl e, m).
Proof.
  intros H1 H2 H3. unfold pass. rewrite H1, H2, H3. reflexivity.
Qed.

Lemma pass_rpc_throws (m : Machine) (e : Error) :
  client_ready w ->
  rpc_answer w (trace m) "get_undone_scrape_jobs" = inl e ->
  pass w m = (inl e, asked m).
Proof.
  intros (H1 & H2 & H3) H. unfold pass. rewrite H1, H2, H3. cbn.
  unfold_handler. rewrite H. reflexivity.
Qed.

Lemma pass_rpc_error (m : Machine) (d : option (list ScrapeJob))
      (queryError : PostgrestError) :
  client_ready w ->
  rpc_answer w (trace m) "get_undone_scrape_jobs"
  = inr (mkRpcAnswer d (Some queryError)) ->
  pass w m = (inl (mkError (pg_message queryError)), asked m).
Proof.
  intros (H1 & H2 & H3) H. unfold pass. rewrite H1, H2, H3. cbn.
  unfold_handler. rewrite H. reflexivity.
Qed.

Lemma pass_no_jobs (m : Machine) (d : option (list ScrapeJob)) :
  client_ready w ->
  rpc_answer w (trace m) "get_undone_scrape_jobs" = inr (mkRpcAnswer d None) ->
  d = None \/ d = Some [] ->
  pass w m
  = (inr (mkResponse 200 jsonHeaders
            (BodyNoJobs "No undone jobs found" (now w (trace (asked m))))),
     asked m).
Proof.
  intros (H1 & H2 & H3) H Hd. unfold pass. rewrite H1, H2, H3. cbn.
  unfold_handler. rewrite H. destruct Hd; subst d; reflexivity.
Qed.

Lemma pass_batch (m m' : Machine) (job : ScrapeJob) (rest : list ScrapeJob) :
  client_ready w ->
  rpc_answer w (trace m) "get_undone_scrape_jobs"
  = inr (mkRpcAnswer (Some (job :: rest)) None) ->
  process_jobs w (env_get w "REDIS_URL") (job :: rest) (at_loop m) = (inr tt, m') ->
  pass w m = (inr (summary_response w (length (job :: rest)) m'), m').
Proof.
  intros (H1 & H2 & H3) H Hloop. unfold pass. rewrite H1, H2, H3. cbn -[process_jobs].
  unfold call_rpc, declare_arrays, bind, log, lift. rewrite H. cbn -[process_jobs].
  unfold at_loop, ev_fetch_batch in Hloop. rewrite Hloop. reflexivity.
Qed.

End PassFacts.

(** A pass either answers 200, the client having been built and the batch
    fetched, or throws for one of five reasons. *)
Lemma pass_outcome (w : World) (m : Machine) :
  match pass w m with
  | (inr response, _) =>
      resp_status response = 200
      /\ client_ready w
      /\ exists d, rpc_answer w (trace m) "get_undone_scrape_jobs"
                   = inr (mkRpcAnswer d None)
  | (inl _, _) =>
      truthy_env (env_get w "SERVICE_ROLE_KEY") = false
      \/ truthy_env (env_get w "REDIS_URL") = false
      \/ (exists e, createClient w (env_get w "SUPABASE_URL")
                                 (env_get w "SERVICE_ROLE_KEY") = Some e)
      \/ (exists e, rpc_answer w (trace m) "get_undone_scrape_jobs" = inl e)
      \/ (exists d queryError,
             rpc_answer w (trace m) "get_undone_scrape_jobs"
             = inr (mkRpcAnswer d (Some queryError)))
  end.
Proof.
  destruct (truthy_env (env_get w "SERVICE_ROLE_KEY")) eqn:Hkey.
  2:{ rewrite (pass_missing_key w m Hkey). auto. }
  destruct (truthy_env (env_get w "REDIS_URL")) eqn:Hflask.
  2:{ rewrite (pass_missing_flask_url w m Hkey Hflask). auto. }
  destruct (createClient w (env_get w "SUPABASE_URL") (env_get w "SERVICE_ROLE_KEY"))
    as [e |] eqn:Hclient.
  { rewrite (pass_client_throws w m e Hkey Hflask Hclient). eauto 6. }
  assert (Hready : client_ready w) by (repeat split; assumption).
  destruct (rpc_answer w (trace m) "get_undone_scrape_jobs") as [e | [d [qe |]]] eqn:Hrpc.
  { rewrite (pass_rpc_throws w m e Hready Hrpc). eauto 8. }
  { rewrite (pass_rpc_error w m d qe Hready Hrpc). eauto 10. }
  destruct d as [[| job rest] |].
  - rewrite (pass_no_jobs w m (Some []) Hready Hrpc (or_intror eq_refl)). eauto.
  - destruct (process_jobs_returns w (env_get w "REDIS_URL") (job :: rest) (at_loop m))
      as (m' & _ & _ & Hloop & _).
    rewrite (pass_batch w m m' job rest Hready Hrpc Hloop). eauto.
  - rewrite (pass_no_jobs w m None Hready Hrpc (or_introl eq_refl)). eauto.
Qed.

(* ------------------------------------------------------------------ *)
(** * The per-job boundary *)

(** C1.  Whatever the per-job [try] block throws - the executor call, the
    reading or parsing of its answer, either store update - is caught at the
    per-job boundary and becomes an entry of [failedJobs]; the loop then goes
    on with the next job and itself never throws.  In the batch [JobX, JobY]
    where the executor call for JobX throws and JobY goes through, the
    summary has JobY as its only success and JobX as its only failure. *)
Theorem C1_exceptions_stop_at_the_job (w : World) :
  (forall u job m m1 e,
      job_body w u job m = (inl e, m1) ->
      job_iteration w u job m
      = (inr tt, with_failure m1 (mkFailed (job_id job) (message e))))
  /\ (forall u pre job post m,
         exists m1 m2 m3,
           process_jobs w u pre m = (inr tt, m1)
           /\ job_iteration w u job m1 = (inr tt, m2)
           /\ one_outcome job m1 m2
           /\ process_jobs w u post m2 = (inr tt, m3)
           /\ process_jobs w u (pre ++ job :: post)%list m = (inr tt, m3))
  /\ (forall req m x y e r v flag,
         let u := env_get w "REDIS_URL" in
         req_method req <> "OPTIONS" ->
         client_ready w ->
         rpc_answer w (trace m) "get_undone_scrape_jobs"
         = inr (mkRpcAnswer (Some [x; y]) None) ->
         fetch_answer w (trace m ++ [ev_fetch_batch]) (submit_url u) (jobData x)
         = inl e ->
         fetch_answer w (trace m ++ [ev_fetch_batch; ev_submit u x])
                      (submit_url u) (jobData y) = inr r ->
         fr_ok r = true ->
         fr_json r = inr v ->
         get_prop v "success" = inr flag ->
         truthy flag = true ->
         update_answer w (trace m ++ [ev_fetch_batch; ev_submit u x; ev_submit u y])
                       "scrape_jobs" "ongoing" "id" (job_id y) = inr None ->
         update_answer w (trace m ++ [ev_fetch_batch; ev_submit u x; ev_submit u y;
                                      ev_mark_job y])
                       "scrape_job_parts" "ongoing" "job_id" (job_id y) = inr None ->
         exists ts,
           fst (serve w req m)
           = mkResponse 200 jsonHeaders
               (BodySummary true "Processed 1 jobs successfully, 1 failed"
                  [mkProcessed (job_id y) v]
                  [mkFailed (job_id x) (message e)]
                  2 ts)).
Proof.
  split; [| split].
  - intros u job m m1 e H. exact (job_iteration_catches w u job m m1 e H).
  - intros u pre job post m.
    destruct (process_jobs_returns w u pre m) as (m1 & _ & _ & Hpre & _).
    destruct (job_iteration_returns w u job m1) as (m2 & Hjob & Hone).
    destruct (process_jobs_returns w u post m2) as (m3 & _ & _ & Hpost & _).
    exists m1, m2, m3. repeat split; auto.
    rewrite process_jobs_app, Hpre. cbn [snd].
    rewrite (process_jobs_cons w u job post m1 m2 Hjob). exact Hpost.
  - intros req m x y e r v flag u Hreq Hready Hrpc Hx Hy Hok Hv Hflag Htruthy Hjob Hparts.
    subst u. set (u := env_get w "REDIS_URL") in *.
    rewrite (serve_runs_pass w req m Hreq).
    pose proof (iteration_fetch_throws w u x (at_loop m) e Hx) as Hturn1.
    cbn [db trace processedJobs failedJobs at_loop app] in Hturn1.
    rewrite <- app_assoc in Hturn1. cbn [app] in Hturn1.
    match type of Hturn1 with _ = (_, ?m1) =>
      pose proof (iteration_job_marked w u y m1 r v flag (inr None)) as Hturn2
    end.
    cbn [db trace processedJobs failedJobs app] in Hturn2.
    rewrite <- !app_assoc in Hturn2. cbn [app] in Hturn2.
    specialize (Hturn2 Hy Hok Hv Hflag Htruthy Hjob Hparts).
    erewrite pass_batch; [| exact Hready | exact Hrpc |].
    2:{ fold u.
        rewrite (process_jobs_cons w u x [y] _ _ Hturn1).
        rewrite (process_jobs_cons w u y [] _ _ Hturn2). reflexivity. }
    eexists. reflexivity.
Qed.

Lemma C1_witness :
  client_ready world_x_throws
  /\ fetch_answer world_x_throws [ev_fetch_batch]
                  (submit_url (Some "http://flask.example")) (jobData jobX)
     = inl network_error
  /\ exists ts,
      fst (serve world_x_throws post (boot empty_db))
      = mkResponse 200 jsonHeaders
          (BodySummary true "Processed 1 jobs successfully, 1 failed"
             [mkProcessed "job-y" (JObj [("success", JBool true); ("queued", JNum 1)])]
             [mkFailed "job-x" "error sending request: connection refused"]
             2 ts).
Proof.
  split; [repeat split | split; [reflexivity |]].
  apply (proj2 (proj2 (C1_exceptions_stop_at_the_job world_x_throws))
               post (boot empty_db) jobX jobY network_error accepted
               (JObj [("success", JBool true); ("queued", JNum 1)])
               (Some (JBool true)));
    try reflexivity.
  - discriminate.
  - repeat split.
Defined.




(** C4.  The parts update is sent only after the job-level update of the same
    job came back without an error.  When the job-level update fails - the
    call throws, or it comes back with an error - the turn ends there: the
    calls it has made are the submission and the job-level update, no parts
    update among them, the store is as it was, and one failure carrying the
    store's error message is recorded. *)
Theorem C4_parts_update_waits_for_job_update (w : World) (u : option string)
        (job : ScrapeJob) (m : Machine) :
  (forall m',
      job_iteration w u job m = (inr tt, m') ->
      In (ev_mark_parts job) (new_events m m') ->
      update_answer w (trace m ++ [ev_submit u job])
                    "scrape_jobs" "ongoing" "id" (job_id job) = inr None)
  /\ (forall r v flag answer,
         fetch_answer w (trace m) (submit_url u) (jobData job) = inr r ->
         fr_ok r = true ->
         fr_json r = inr v ->
         get_prop v "success" = inr flag ->
         truthy flag = true ->
         update_answer w (trace m ++ [ev_submit u job])
                       "scrape_jobs" "ongoing" "id" (job_id job) = answer ->
         answer <> inr None ->
         exists m',
           job_iteration w u job m = (inr tt, m')
           /\ new_events m m' = [ev_submit u job; ev_mark_job job]
           /\ ~ In (ev_mark_parts job) (new_events m m')
           /\ db m' = db m
           /\ processedJobs m' = processedJobs m
           /\ failedJobs m'
              = (failedJobs m
                   ++ [mkFailed (job_id job)
                         (update_failure "DB update error: " answer)])%list).
Proof.
  split.
  - intros m' Hrun Hin.
    destruct (job_iteration_calls w u job m m' Hrun) as [Hn | [[Hn _] | [Hn Hs]]];
      rewrite (new_events_app m m' _ Hn) in Hin.
    + destruct Hin as [Hin | []]. discriminate Hin.
    + destruct Hin as [Hin | [Hin | []]]; discriminate Hin.
    + exact Hs.
  - intros r v flag answer H Hok Hv Hflag Htruthy Hupd Hfail.
    eexists. split.
    + exact (iteration_job_update_fails w u job m r v flag answer
               H Hok Hv Hflag Htruthy Hupd Hfail).
    + match goal with |- new_events m ?m' = _ /\ _ =>
        assert (Hnew : new_events m m' = [ev_submit u job; ev_mark_job job])
          by (apply new_events_app; reflexivity)
      end.
      rewrite Hnew. repeat split.
      intros [Hin | [Hin | []]]; discriminate Hin.
Qed.

Lemma C4_witness :
  update_answer world_update_denied [ev_submit (Some "http://flask.example") jobX]
                "scrape_jobs" "ongoing" "id" "job-x"
  = inr (Some (mkPostgrestError "permission denied for table scrape_jobs"))
  /\ exists m',
      job_iteration world_update_denied (Some "http://flask.example") jobX
                    (boot db_half_done) = (inr tt, m')
      /\ new_events (boot db_half_done) m'
         = [ev_submit (Some "http://flask.example") jobX; ev_mark_job jobX]
      /\ ~ In (ev_mark_parts jobX) (new_events (boot db_half_done) m')
      /\ db m' = db_half_done
      /\ failedJobs m'
         = [mkFailed "job-x"
              "DB update error: permission denied for table scrape_jobs"].
Proof.
  split; [reflexivity |].
  destruct (proj2 (C4_parts_update_waits_for_job_update world_update_denied
                     (Some "http://flask.example") jobX (boot db_half_done))
                  accepted (JObj [("success", JBool true); ("queued", JNum 1)])
                  (Some (JBool true))
                  (inr (Some (mkPostgrestError "permission denied for table scrape_jobs")))
                  eq_refl eq_refl eq_refl eq_refl eq_refl eq_refl)
    as (m' & Hrun & Hnew & Hnot & Hdb & _ & Hfailed).
  - discriminate.
  - exists m'. repeat split; assumption.
Defined.

(* ------------------------------------------------------------------ *)
(** * The answer of a pass *)

(** C8.  A batch of the single job JobX, for which the executor answers
    HTTP 503 with the body "overloaded": the summary has no success and the
    one failure (JobX, "Flask API error (503): overloaded").  The pass made
    two calls, the batch fetch and one submission: nothing was sent twice
    and no store update was made. *)
Theorem C8_overloaded_executor (w : World) (req : Request) (m : Machine)
        (x : ScrapeJob) (r : FlaskResponse) :
  let u := env_get w "REDIS_URL" in
  req_method req <> "OPTIONS" ->
  client_ready w ->
  rpc_answer w (trace m) "get_undone_scrape_jobs" = inr (mkRpcAnswer (Some [x]) None) ->
  fetch_answer w (trace m ++ [ev_fetch_batch]) (submit_url u) (jobData x) = inr r ->
  fr_status r = 503 ->
  fr_text r = inr "overloaded" ->
  exists ts,
    serve w req m
    = (mkResponse 200 jsonHeaders
         (BodySummary true "Processed 0 jobs successfully, 1 failed"
            []
            [mkFailed (job_id x) "Flask API error (503): overloaded"]
            1 ts),
       mkMachine (db m) (trace m ++ [ev_fetch_batch; ev_submit u x])
                 [] [mkFailed (job_id x) "Flask API error (503): overloaded"]).
Proof.
  intros u Hreq Hready Hrpc Hfetch Hstatus Htext.
  rewrite (serve_runs_pass w req m Hreq).
  assert (Hok : fr_ok r = false) by (unfold fr_ok; rewrite Hstatus; reflexivity).
  pose proof (iteration_transport_failure w u x (at_loop m) r "overloaded"
                Hfetch Hok Htext) as Hturn.
  rewrite Hstatus in Hturn.
  cbn [db trace processedJobs failedJobs at_loop app] in Hturn.
  rewrite <- app_assoc in Hturn. cbn [app] in Hturn.
  erewrite pass_batch; [| exact Hready | exact Hrpc |].
  2:{ fold u. rewrite (process_jobs_cons w u x [] _ _ Hturn). reflexivity. }
  eexists. reflexivity.
Qed.

Lemma C8_witness :
  fr_status overloaded = 503
  /\ exists ts,
      serve world_overloaded post (boot db_half_done)
      = (mkResponse 200 jsonHeaders
           (BodySummary true "Processed 0 jobs successfully, 1 failed"
              []
              [mkFailed "job-x" "Flask API error (503): overloaded"]
              1 ts),
         mkMachine db_half_done
                   [ev_fetch_batch; ev_submit (Some "http://flask.example") jobX]
                   [] [mkFailed "job-x" "Flask API error (503): overloaded"]).
Proof.
  split; [reflexivity |].
  apply (C8_overloaded_executor world_overloaded post (boot db_half_done) jobX
                                overloaded);
    try reflexivity.
  - discriminate.
  - repeat split.
Defined.

(** C7.  When the batch that was fetched is empty (or no batch came back at
    all), the pass stops there: the answer is 200 with the message
    "No undone jobs found"; the only call the pass has made is the batch
    fetch - no submission to the executor, no store update; the store is as
    it was and neither array has received an entry. *)
Theorem C7_empty_batch_stops_the_pass (w : World) (req : Request) (m : Machine)
        (data : option (list ScrapeJob)) :
  req_method req <> "OPTIONS" ->
  client_ready w ->
  rpc_answer w (trace m) "get_undone_scrape_jobs" = inr (mkRpcAnswer data None) ->
  data = None \/ data = Some [] ->
  exists ts m',
    serve w req m
    = (mkResponse 200 jsonHeaders (BodyNoJobs "No undone jobs found" ts), m')
    /\ new_events m m' = [ev_fetch_batch]
    /\ db m' = db m
    /\ processedJobs m' = processedJobs m
    /\ failedJobs m' = failedJobs m.
Proof.
  intros Hreq Hready Hrpc Hdata.
  rewrite (serve_runs_pass w req m Hreq).
  rewrite (pass_no_jobs w m data Hready Hrpc Hdata).
  eexists. exists (asked m). repeat split.
  apply new_events_app. reflexivity.
Qed.

Lemma C7_witness :
  client_ready world_empty_batch
  /\ exists ts m',
      serve world_empty_batch post (boot db_half_done)
      = (mkResponse 200 jsonHeaders (BodyNoJobs "No undone jobs found" ts), m')
      /\ new_events (boot db_half_done) m' = [ev_fetch_batch]
      /\ db m' = db_half_done
      /\ processedJobs m' = []
      /\ failedJobs m' = [].
Proof.
  split; [repeat split |].
  apply (C7_empty_batch_stops_the_pass world_empty_batch post (boot db_half_done)
                                       (Some [])).
  - discriminate.
  - repeat split.
  - reflexivity.
  - right. reflexivity.
Defined.

(** C2.  In a pass whose batch fetch succeeds every fetched job leaves
    exactly one entry, in [processed_jobs] or in [failed_jobs]: the two
    lists of the summary together are as long as the batch, which is the
    [total_found] the summary reports, and the job identifiers they carry
    are those of the batch, each as often as the batch has it.  (The empty
    batch is answered without a summary: no job, no entry.) *)
Theorem C2_one_outcome_per_job (w : World) (req : Request) (m : Machine)
        (jobs : list ScrapeJob) :
  req_method req <> "OPTIONS" ->
  client_ready w ->
  rpc_answer w (trace m) "get_undone_scrape_jobs" = inr (mkRpcAnswer (Some jobs) None) ->
  exists ps fs,
    (length ps + length fs = length jobs)%nat
    /\ Permutation (map pe_job_id ps ++ map fe_job_id fs)%list (map job_id jobs)
    /\ ((jobs = []
         /\ exists ts,
             fst (serve w req m)
             = mkResponse 200 jsonHeaders (BodyNoJobs "No undone jobs found" ts))
        \/ (jobs <> []
            /\ exists msg ts,
                fst (serve w req m)
                = mkResponse 200 jsonHeaders
                    (BodySummary true msg ps fs (length jobs) ts))).
Proof.
  intros Hreq Hready Hrpc.
  rewrite (serve_runs_pass w req m Hreq).
  destruct jobs as [| job rest].
  - exists [], []. repeat split; [constructor |]. left. split; [reflexivity |].
    rewrite (pass_no_jobs w m (Some []) Hready Hrpc (or_intror eq_refl)).
    eexists. reflexivity.
  - destruct (process_jobs_returns w (env_get w "REDIS_URL") (job :: rest) (at_loop m))
      as (m' & ps & fs & Hloop & Hps & Hfs & Hlen & Hperm).
    rewrite (pass_batch w m m' job rest Hready Hrpc Hloop).
    cbn [at_loop processedJobs failedJobs app] in Hps, Hfs.
    unfold summary_response. rewrite Hps, Hfs.
    exists ps, fs. repeat split; [assumption | assumption |].
    right. split; [discriminate |]. eexists _, _. reflexivity.
Qed.

Lemma C2_witness :
  client_ready world_x_throws
  /\ exists ps fs,
      (length ps + length fs = 2)%nat
      /\ Permutation (map pe_job_id ps ++ map fe_job_id fs)%list ["job-x"; "job-y"]
      /\ exists msg ts,
          fst (serve world_x_throws post (boot empty_db))
          = mkResponse 200 jsonHeaders (BodySummary true msg ps fs 2 ts).
Proof.
  split; [repeat split |].
  destruct (C2_one_outcome_per_job world_x_throws post (boot empty_db) [jobX; jobY])
    as (ps & fs & Hlen & Hperm & [[Hnil _] | [_ Hsum]]).
  - discriminate.
  - repeat split.
  - reflexivity.
  - discriminate Hnil.
  - exists ps, fs. repeat split; assumption.
Defined.

(** C10, as the code has it.  In a pass whose configuration let the client be
    built and whose batch fetch succeeded, the answer has status 200; when
    the batch is not empty its body has the top-level [success: true],
    whatever became of the jobs - also when every one of them failed; when
    the batch is empty the body is the message "No undone jobs found" with a
    timestamp, and has no [success] member.  The 500 answer is produced only
    when the credential or the executor URL is missing, the client
    constructor throws, or the batch fetch throws or comes back with an
    error. *)
Theorem C10_status_of_a_pass (w : World) (req : Request) (m : Machine) :
  req_method req <> "OPTIONS" ->
  (forall data,
      client_ready w ->
      rpc_answer w (trace m) "get_undone_scrape_jobs" = inr (mkRpcAnswer data None) ->
      resp_status (fst (serve w req m)) = 200
      /\ match data with
         | Some (_ :: _) =>
             body_success (resp_body (fst (serve w req m))) = Some true
         | _ =>
             exists ts,
               resp_body (fst (serve w req m)) = BodyNoJobs "No undone jobs found" ts
         end)
  /\ (resp_status (fst (serve w req m)) = 500 ->
      truthy_env (env_get w "SERVICE_ROLE_KEY") = false
      \/ truthy_env (env_get w "REDIS_URL") = false
      \/ (exists e, createClient w (env_get w "SUPABASE_URL")
                                 (env_get w "SERVICE_ROLE_KEY") = Some e)
      \/ (exists e, rpc_answer w (trace m) "get_undone_scrape_jobs" = inl e)
      \/ (exists d queryError,
             rpc_answer w (trace m) "get_undone_scrape_jobs"
             = inr (mkRpcAnswer d (Some queryError)))).
Proof.
  intros Hreq. rewrite (serve_runs_pass w req m Hreq). split.
  - intros data Hready Hrpc. destruct data as [[| job rest] |].
    + rewrite (pass_no_jobs w m (Some []) Hready Hrpc (or_intror eq_refl)).
      split; [reflexivity | eexists; reflexivity].
    + destruct (process_jobs_returns w (env_get w "REDIS_URL") (job :: rest)
                  (at_loop m)) as (m' & _ & _ & Hloop & _).
      rewrite (pass_batch w m m' job rest Hready Hrpc Hloop).
      split; reflexivity.
    + rewrite (pass_no_jobs w m None Hready Hrpc (or_introl eq_refl)).
      split; [reflexivity | eexists; reflexivity].
  - pose proof (pass_outcome w m) as Hout.
    destruct (pass w m) as [[e | response] m']; cbn [fst resp_status].
    + intros _. exact Hout.
    + destruct Hout as (Hstatus & _). rewrite Hstatus. discriminate.
Qed.

(** Every job of the batch fails and the answer is still 200 with
    [success: true]. *)
Lemma C10_witness :
  client_ready world_overloaded
  /\ resp_status (fst (serve world_overloaded post (boot db_half_done))) = 200
  /\ body_success (resp_body (fst (serve world_overloaded post (boot db_half_done))))
     = Some true.
Proof.
  split; [repeat split |].
  apply (proj1 (C10_status_of_a_pass world_overloaded post (boot db_half_done)
                                     ltac:(discriminate))
               (Some [jobX])).
  - repeat split.
  - reflexivity.
Defined.

(** C10 as stated fails on the empty batch: configuration present, batch
    fetch successful, status 200 - and a body without any [success]
    member. *)
Lemma C10_counterexample :
  client_ready world_empty_batch
  /\ rpc_answer world_empty_batch (trace (boot db_half_done)) "get_undone_scrape_jobs"
     = inr (mkRpcAnswer (Some []) None)
  /\ resp_status (fst (serve world_empty_batch post (boot db_half_done))) = 200
  /\ body_success (resp_body (fst (serve world_empty_batch post (boot db_half_done))))
     = None
  /\ body_success (resp_body (fst (serve world_empty_batch post (boot db_half_done))))
     <> Some true.
Proof.
  repeat split. discriminate.
Qed.

(** C5.  If a required configuration item - the store endpoint, the store
    credential or the executor URL - is missing (or empty), the pass aborts
    before the batch fetch: nothing is called, the store is untouched, and
    the caller gets a 500 answer [{success: false, error, timestamp}]
    instead of a summary.  For the credential and the executor URL the
    message names the variable, by the handler's own two checks; the store
    endpoint is caught one step later by the client constructor, whose
    message the answer then carries.  In particular a missing executor URL
    gives 500 with no batch fetch. *)
Theorem C5_missing_configuration (w : World) (req : Request) (m : Machine) :
  req_method req <> "OPTIONS" ->
  rejects_missing_url w ->
  truthy_env (env_get w "SUPABASE_URL") = false
  \/ truthy_env (env_get w "SERVICE_ROLE_KEY") = false
  \/ truthy_env (env_get w "REDIS_URL") = false ->
  exists msg,
    serve w req m = (mkResponse 500 jsonHeaders (BodyError false msg (now w (trace m))), m)
    /\ new_events m (snd (serve w req m)) = []
    /\ (forall fn, ~ In (EvRpc fn) (new_events m (snd (serve w req m))))
    /\ (truthy_env (env_get w "SERVICE_ROLE_KEY") = false ->
        msg = "SERVICE_ROLE_KEY environment variable is required")
    /\ (truthy_env (env_get w "SERVICE_ROLE_KEY") = true ->
        truthy_env (env_get w "REDIS_URL") = false ->
        msg = "REDIS_URL environment variable is required")
    /\ (truthy_env (env_get w "SERVICE_ROLE_KEY") = true ->
        truthy_env (env_get w "REDIS_URL") = true ->
        exists e,
          createClient w (env_get w "SUPABASE_URL") (env_get w "SERVICE_ROLE_KEY")
          = Some e
          /\ msg = message e).
Proof.
  intros Hreq Hclient Hmissing. rewrite (serve_runs_pass w req m Hreq).
  assert (Hnone : new_events m m = []).
  { apply new_events_app. rewrite app_nil_r. reflexivity. }
  destruct (truthy_env (env_get w "SERVICE_ROLE_KEY")) eqn:Hkey.
  2:{ rewrite (pass_missing_key w m Hkey). cbn [fst snd]. rewrite Hnone.
      eexists. split; [reflexivity |]. repeat split; try discriminate.
      intros fn []. }
  destruct (truthy_env (env_get w "REDIS_URL")) eqn:Hflask.
  2:{ rewrite (pass_missing_flask_url w m Hkey Hflask). cbn [fst snd]. rewrite Hnone.
      eexists. split; [reflexivity |]. repeat split; try discriminate.
      intros fn []. }
  destruct Hmissing as [Hurl | [Hbad | Hbad]]; try discriminate Hbad.
  destruct (Hclient (env_get w "SUPABASE_URL") (env_get w "SERVICE_ROLE_KEY") Hurl)
    as [e He].
  rewrite (pass_client_throws w m e Hkey Hflask He). cbn [fst snd]. rewrite Hnone.
  exists (message e). split; [reflexivity |]. repeat split; try discriminate.
  - intros fn [].
  - intros _ _. exists e. split; [exact He | reflexivity].
Qed.

(** Neither without the executor URL nor without the store endpoint is
    anything called; the answer is 500 either way. *)
Lemma C5_witness :
  rejects_missing_url world_no_flask_url
  /\ env_get world_no_flask_url "REDIS_URL" = None
  /\ env_get world_no_store_url "SUPABASE_URL" = None
  /\ (exists msg,
         serve world_no_flask_url post (boot db_half_done)
         = (mkResponse 500 jsonHeaders
              (BodyError false msg "2024-05-01T12:00:00.000Z"),
            boot db_half_done)
         /\ msg = "REDIS_URL environment variable is required")
  /\ (exists msg,
         serve world_no_store_url post (boot db_half_done)
         = (mkResponse 500 jsonHeaders
              (BodyError false msg "2024-05-01T12:00:00.000Z"),
            boot db_half_done)
         /\ new_events (boot db_half_done)
                       (snd (serve world_no_store_url post (boot db_half_done))) = []).
Proof.
  assert (Hchecks : forall env batch flask update,
             rejects_missing_url (checked_world env batch flask update)).
  { intros env batch flask update url key Hurl. cbn. unfold checking_client.
    rewrite Hurl. eexists. reflexivity. }
  split; [apply Hchecks |]. split; [reflexivity |]. split; [reflexivity |]. split.
  - destruct (C5_missing_configuration world_no_flask_url post (boot db_half_done)
                ltac:(discriminate) (Hchecks _ _ _ _)
                (or_intror (or_intror eq_refl)))
      as (msg & Hserve & _ & _ & _ & Hmsg & _).
    exists msg. split; [exact Hserve | exact (Hmsg eq_refl eq_refl)].
  - destruct (C5_missing_configuration world_no_store_url post (boot db_half_done)
                ltac:(discriminate) (Hchecks _ _ _ _) (or_introl eq_refl))
      as (msg & Hserve & Hnone & _).
    exists msg. split; [exact Hserve | exact Hnone].
Defined.

(* ------------------------------------------------------------------ *)
(** * The query and the store updates *)

Lemma key_eqb_eq (a b : group_key) : key_eqb a b = true <-> a = b.
Proof.
  destruct a as [[[i1 p1] e1] c1], b as [[[i2 p2] e2] c2]. cbn.
  rewrite !andb_true_iff, !String.eqb_eq, Z.eqb_eq.
  split.
  - intros [[[-> ->] ->] ->]. reflexivity.
  - intros H. injection H as -> -> -> ->. auto.
Qed.

Lemma seen_spec (k : group_key) (seen : list group_key) :
  existsb (key_eqb k) seen = true <-> In k seen.
Proof.
  rewrite existsb_exists. split.
  - intros (x & Hin & Heq). apply key_eqb_eq in Heq. subst x. exact Hin.
  - intros Hin. exists k. split; [exact Hin | apply key_eqb_eq; reflexivity].
Qed.

Lemma key_eq_dec (a b : group_key) : a = b \/ a <> b.
Proof.
  destruct (key_eqb a b) eqn:E.
  - left. apply key_eqb_eq. exact E.
  - right. intros H. apply key_eqb_eq in H. congruence.
Qed.

Lemma distinct_keys_In (ks : list group_key) :
  forall seen k, In k (distinct_keys seen ks) <-> In k ks /\ ~ In k seen.
Proof.
  induction ks as [| k0 rest IH]; intros seen k; cbn.
  - tauto.
  - destruct (existsb (key_eqb k0) seen) eqn:E.
    + apply seen_spec in E. rewrite IH. split.
      * intros [H1 H2]. auto.
      * intros [[-> | H1] H2]; [contradiction | auto].
    + assert (Hnot : ~ In k0 seen).
      { intros H. apply seen_spec in H. congruence. }
      cbn. rewrite IH. cbn. split.
      * intros [-> | [H1 H2]]; [auto |]. split; [auto | tauto].
      * intros [[-> | H1] H2]; [auto |].
        destruct (key_eq_dec k0 k) as [-> | Hne]; [auto |]. right. split; [auto |].
        intros [H | H]; [exact (Hne H) | exact (H2 H)].
Qed.

Lemma distinct_keys_NoDup (ks : list group_key) :
  forall seen, NoDup (distinct_keys seen ks).
Proof.
  induction ks as [| k0 rest IH]; intros seen; cbn.
  - constructor.
  - destruct (existsb (key_eqb k0) seen); [apply IH |].
    constructor; [| apply IH].
    rewrite distinct_keys_In. cbn. tauto.
Qed.

Lemma insert_row_perm (r : undone_row) (l : list undone_row) :
  Permutation (insert_row r l) (r :: l).
Proof.
  induction l as [| x rest IH]; cbn; [reflexivity |].
  destruct (ur_created_at r <? ur_created_at x); [reflexivity |].
  rewrite IH. apply perm_swap.
Qed.

Lemma order_by_created_at_perm (l : list undone_row) :
  Permutation (order_by_created_at l) l.
Proof.
  induction l as [| r rest IH]; cbn; [reflexivity |].
  rewrite insert_row_perm. constructor. exact IH.
Qed.

Lemma insert_row_sorted (r : undone_row) (l : list undone_row) :
  StronglySorted created_at_le l -> StronglySorted created_at_le (insert_row r l).
Proof.
  induction l as [| x rest IH]; cbn; intros Hs.
  - repeat constructor.
  - apply StronglySorted_inv in Hs. destruct Hs as [Hrest Hall].
    destruct (ur_created_at r <? ur_created_at x) eqn:E.
    + apply Z.ltb_lt in E. constructor; [constructor; assumption |].
      constructor; [unfold created_at_le; lia |].
      eapply Forall_impl; [| exact Hall]. unfold created_at_le. intros a Ha. lia.
    + apply Z.ltb_ge in E. constructor; [apply IH; exact Hrest |].
      eapply Permutation_Forall; [symmetry; apply insert_row_perm |].
      constructor; [exact E | exact Hall].
Qed.

Lemma order_by_created_at_sorted (l : list undone_row) :
  StronglySorted created_at_le (order_by_created_at l).
Proof.
  induction l as [| r rest IH]; cbn; [constructor |].
  apply insert_row_sorted. exact IH.
Qed.

Lemma join_rows_In (db : DB) (sj : scrape_jobs_row) (sjp : scrape_job_parts_row) :
  In (sj, sjp) (join_rows db)
  <-> In sj (scrape_jobs db) /\ In sjp (scrape_job_parts db)
      /\ sj_id sj = sjp_job_id sjp.
Proof.
  unfold join_rows. rewrite in_flat_map. split.
  - intros (sj' & Hsj & Hin). apply in_map_iff in Hin.
    destruct Hin as (sjp' & Heq & Hin). injection Heq as -> ->.
    apply filter_In in Hin. destruct Hin as [Hin Hid].
    apply String.eqb_eq in Hid. auto.
  - intros (Hsj & Hsjp & Hid). exists sj. split; [exact Hsj |].
    apply in_map. apply filter_In. split; [exact Hsjp |].
    apply String.eqb_eq. exact Hid.
Qed.

(** The rows that survive the [WHERE] clause. *)
Lemma undone_rows_In (db : DB) (sj : scrape_jobs_row) (sjp : scrape_job_parts_row) :
  In (sj, sjp) (filter where_undone (join_rows db))
  <-> In sj (scrape_jobs db) /\ In sjp (scrape_job_parts db)
      /\ sjp_job_id sjp = sj_id sj
      /\ sj_status sj = "undone" /\ sjp_status sjp = "undone".
Proof.
  rewrite filter_In, join_rows_In. unfold where_undone. cbn [fst snd].
  rewrite andb_true_iff, !String.eqb_eq. intuition congruence.
Qed.

Lemma group_by_keys (rows : list (scrape_jobs_row * scrape_job_parts_row)) :
  map row_key (group_by rows)
  = distinct_keys [] (map (fun r => key_of (fst r)) rows).
Proof.
  unfold group_by. rewrite map_map.
  rewrite <- (map_id (distinct_keys [] _)) at 2.
  apply map_ext. intros [[[i p] e] c]. reflexivity.
Qed.

Lemma group_by_parts (rows : list (scrape_jobs_row * scrape_job_parts_row))
      (r : undone_row) :
  In r (group_by rows) -> ur_job_parts r = json_agg (row_key r) rows.
Proof.
  unfold group_by. intros H. apply in_map_iff in H.
  destruct H as ([[[i p] e] c] & <- & _). reflexivity.
Qed.

Lemma json_agg_In (k : group_key)
      (rows : list (scrape_jobs_row * scrape_job_parts_row)) (po : part_object) :
  In po (json_agg k rows)
  <-> exists sj sjp, In (sj, sjp) rows /\ key_of sj = k /\ po = json_build_object sjp.
Proof.
  unfold json_agg. rewrite in_map_iff. split.
  - intros ([sj sjp] & <- & Hin). apply filter_In in Hin. destruct Hin as [Hin Hk].
    apply key_eqb_eq in Hk. exists sj, sjp. auto.
  - intros (sj & sjp & Hin & Hk & ->). exists (sj, sjp). split; [reflexivity |].
    apply filter_In. split; [exact Hin | apply key_eqb_eq; exact Hk].
Qed.

(** The keys of the rows the function returns. *)
Lemma returned_keys (db : DB) (k : group_key) :
  In k (map row_key (get_undone_scrape_jobs db))
  <-> exists sj sjp,
      In (sj, sjp) (filter where_undone (join_rows db)) /\ key_of sj = k.
Proof.
  unfold get_undone_scrape_jobs.
  pose proof (Permutation_map row_key
                (order_by_created_at_perm
                   (group_by (filter where_undone (join_rows db))))) as Hperm.
  assert (Hsame : In k (map row_key
                          (order_by_created_at
                             (group_by (filter where_undone (join_rows db)))))
                  <-> In k (map row_key
                              (group_by (filter where_undone (join_rows db))))).
  { split; apply Permutation_in; [exact Hperm | symmetry; exact Hperm]. }
  rewrite Hsame, group_by_keys, distinct_keys_In, in_map_iff. split.
  - intros [([sj sjp] & Hk & Hin) _]. exists sj, sjp. auto.
  - intros (sj & sjp & Hin & Hk). split; [| tauto]. exists (sj, sjp). auto.
Qed.


(** C6, as the code has it.  [get_undone_scrape_jobs] returns one row for
    each undone job that has at least one undone part - whatever the status
    of its other parts - and no other row; the [job_parts] of a row are the
    undone parts of that job and only those; the rows come in ascending
    order of [created_at]. *)
Theorem C6_what_the_query_returns (db : DB) :
  (forall k,
      In k (map row_key (get_undone_scrape_jobs db))
      <-> exists sj sjp,
        In sj (scrape_jobs db) /\ In sjp (scrape_job_parts db)
        /\ key_of sj = k
        /\ sj_status sj = "undone"
        /\ sjp_job_id sjp = sj_id sj /\ sjp_status sjp = "undone")
  /\ NoDup (map row_key (get_undone_scrape_jobs db))
  /\ (forall r po,
         In r (get_undone_scrape_jobs db) ->
         In po (ur_job_parts r)
         <-> exists sjp,
           In sjp (scrape_job_parts db)
           /\ sjp_job_id sjp = ur_job_id r
           /\ sjp_status sjp = "undone"
           /\ po = json_build_object sjp)
  /\ StronglySorted created_at_le (get_undone_scrape_jobs db).
Proof.
  split; [| split; [| split]].
  - intros k. rewrite returned_keys. split.
    + intros (sj & sjp & Hin & Hk). apply undone_rows_In in Hin.
      exists sj, sjp. tauto.
    + intros (sj & sjp & Hsj & Hsjp & Hk & Hs & Hid & Hps).
      exists sj, sjp. split; [| exact Hk]. apply undone_rows_In. tauto.
  - unfold get_undone_scrape_jobs.
    eapply Permutation_NoDup.
    + symmetry. apply Permutation_map. apply order_by_created_at_perm.
    + rewrite group_by_keys. apply distinct_keys_NoDup.
  - intros r po Hr.
    assert (Hkey : In (row_key r) (map row_key (get_undone_scrape_jobs db)))
      by (apply in_map; exact Hr).
    apply returned_keys in Hkey. destruct Hkey as (sj0 & sjp0 & Hin0 & Hk0).
    apply undone_rows_In in Hin0. destruct Hin0 as (Hsj0 & _ & _ & Hs0 & _).
    assert (Hid0 : sj_id sj0 = ur_job_id r).
    { unfold key_of, row_key in Hk0. injection Hk0 as H _ _ _. exact H. }
    unfold get_undone_scrape_jobs in Hr.
    apply (Permutation_in _ (order_by_created_at_perm _)) in Hr.
    rewrite (group_by_parts _ r Hr), json_agg_In. split.
    + intros (sj & sjp & Hin & Hk & ->). apply undone_rows_In in Hin.
      destruct Hin as (_ & Hsjp & Hid & _ & Hps).
      exists sjp. repeat split; try assumption.
      unfold key_of, row_key in Hk. injection Hk as H _ _ _. congruence.
    + intros (sjp & Hsjp & Hid & Hps & ->).
      exists sj0, sjp. repeat split; try assumption.
      apply undone_rows_In. repeat split; try assumption. congruence.
  - apply order_by_created_at_sorted.
Qed.

(** On [db_half_done] the row of job-x carries part-x1, its undone part. *)
Lemma C6_witness :
  map ur_job_id (get_undone_scrape_jobs db_half_done) = ["job-x"; "job-y"]
  /\ forall r,
      In r (get_undone_scrape_jobs db_half_done) ->
      ur_job_id r = "job-x" ->
      In (mkPartObject "part-x1" (Some "SW1A 1AA") (Some "plumber") (Some "London")
                       None (Some "UK"))
         (ur_job_parts r).
Proof.
  split; [reflexivity |].
  intros r Hr Hid.
  destruct (C6_what_the_query_returns db_half_done) as (_ & _ & Hparts & _).
  apply (Hparts r _ Hr).
  exists (mkPartRow "part-x1" "job-x" (Some "SW1A 1AA") (Some "plumber") (Some "London")
                    None (Some "UK") "undone").
  rewrite Hid. repeat split. left. reflexivity.
Defined.

(** C6 as stated fails on [db_half_done] in both directions.
    job-x is returned although one of its parts is done, and its row leaves
    that part out; job-z, undone and with no part that is not undone, is not
    returned. *)
Lemma C6_counterexample :
  (exists r sj,
      In r (get_undone_scrape_jobs db_half_done)
      /\ In sj (scrape_jobs db_half_done)
      /\ key_of sj = row_key r
      /\ eligible_as_stated db_half_done sj = false
      /\ length (ur_job_parts r) <> length (parts_of db_half_done (sj_id sj)))
  /\ (exists sj,
         In sj (scrape_jobs db_half_done)
         /\ eligible_as_stated db_half_done sj = true
         /\ ~ In (key_of sj) (map row_key (get_undone_scrape_jobs db_half_done))).
Proof.
  split.
  - exists (mkUndoneRow "job-x" "profile-1" "google_maps" 1714557600000000
              [mkPartObject "part-x1" (Some "SW1A 1AA") (Some "plumber")
                            (Some "London") None (Some "UK")]),
           (mkJobRow "job-x" "profile-1" "google_maps" 1714557600000000 "undone").
    repeat split; [left; reflexivity | left; reflexivity | cbn; discriminate].
  - exists (mkJobRow "job-z" "profile-2" "google_maps" 1714550400000000 "undone").
    repeat split; [right; right; left; reflexivity |].
    cbn. intros [H | [H | []]]; discriminate H.
Qed.

(* ------------------------------------------------------------------ *)
(** * What the parts update reaches *)




(* ------------------------------------------------------------------ *)
(** * How a turn and a loop end *)

(** Closes a case of a turn after its final machine is known. *)
Ltac turn_closed Hrun :=
  injection Hrun as <-; cbn [db trace processedJobs failedJobs];
  rewrite <- ?app_assoc; cbn [app].

Lemma job_iteration_cases (w : World) (u : option string) (job : ScrapeJob)
      (m m' : Machine) :
  job_iteration w u job m = (inr tt, m') -> turn_case w u job m m'.
Proof.
  unfold_handler.
  destruct (fetch_answer w (trace m) (submit_url u) (jobData job)) as [e | r] eqn:Hf;
    cbn.
  { intros Hrun. turn_closed Hrun. apply turn_not_accepted; try reflexivity.
    intros (r & v & flag & H1 & _). congruence. }
  destruct (fr_ok r) eqn:Hok; cbn.
  2:{ destruct (fr_text r); cbn; intros Hrun; turn_closed Hrun;
      (apply turn_not_accepted; try reflexivity;
       intros (r' & v & flag & H1 & H2 & _); congruence). }
  destruct (fr_json r) as [e | v] eqn:Hv; cbn.
  { intros Hrun. turn_closed Hrun. apply turn_not_accepted; try reflexivity.
    intros (r' & v & flag & H1 & _ & H3 & _). congruence. }
  destruct (get_prop v "success") as [e | flag] eqn:Hflag; cbn.
  { intros Hrun. turn_closed Hrun. apply turn_not_accepted; try reflexivity.
    intros (r' & v' & flag & H1 & _ & H3 & H4 & _). congruence. }
  destruct (truthy flag) eqn:Ht; cbn.
  2:{ destruct (get_prop_defined v "success" "error" flag Hflag) as [y Hy].
      rewrite Hy. cbn. destruct (to_string y); cbn; intros Hrun; turn_closed Hrun;
        (apply turn_not_accepted; try reflexivity;
         intros (r' & v' & flag' & H1 & _ & H3 & H4 & H5); congruence). }
  assert (Hacc : accepted_by w u job m) by (exists r, v, flag; auto).
  destruct (update_answer w (trace m ++ [EvFetch (submit_url u) "POST" (jobData job)])
              "scrape_jobs" "ongoing" "id" (job_id job)) as [e | [e | ]]; cbn.
  1,2: intros Hrun; turn_closed Hrun;
    apply turn_job_update_failed; try reflexivity; exact Hacc.
  destruct (update_answer w _ "scrape_job_parts" "ongoing" "job_id" (job_id job))
    as [e | [e | ]]; cbn; intros Hrun; turn_closed Hrun.
  1,2: apply turn_parts_update_failed; try reflexivity; exact Hacc.
  apply (turn_done w u job m _ v); try reflexivity. exact Hacc.
Qed.

(** What the loop adds to the trace: one submission per job, in the order of
    the batch, and between them only updates for jobs of the batch. *)
Lemma process_jobs_trace (w : World) (u : option string) (jobs : list ScrapeJob) :
  forall m m',
    process_jobs w u jobs m = (inr tt, m') ->
    exists evs,
      trace m' = (trace m ++ evs)%list
      /\ filter is_submission evs = map (ev_submit u) jobs
      /\ Forall (fun ev => is_submission ev = true \/ marks_a_job_of jobs ev) evs.
Proof.
  induction jobs as [| job rest IH]; intros m m' Hrun.
  - injection Hrun as <-. exists []. rewrite app_nil_r. repeat split. constructor.
  - destruct (job_iteration_returns w u job m) as (m1 & Hturn & _).
    rewrite (process_jobs_cons w u job rest m m1 Hturn) in Hrun.
    destruct (IH m1 m' Hrun) as (evs & Htrace & Hsub & Hall).
    assert (Hrest : Forall (fun ev => is_submission ev = true
                                      \/ marks_a_job_of (job :: rest) ev) evs).
    { eapply Forall_impl; [| exact Hall]. intros ev [H | (j & Hj & H)]; [auto |].
      right. exists j. split; [right; exact Hj | exact H]. }
    assert (Hown : forall ev, ev = ev_mark_job job \/ ev = ev_mark_parts job ->
                              is_submission ev = true
                              \/ marks_a_job_of (job :: rest) ev).
    { intros ev H. right. exists job. split; [left; reflexivity | exact H]. }
    destruct (job_iteration_calls w u job m m1 Hturn) as [Hn | [[Hn _] | [Hn _]]];
      rewrite Htrace, Hn, <- app_assoc; eexists; (split; [reflexivity |]);
      cbn; rewrite Hsub; (split; [reflexivity |]);
      repeat (constructor; auto).
Qed.

Lemma job_row_marked_refl (ids : list string) (l : list scrape_jobs_row) :
  Forall2 (job_row_marked ids) l l.
Proof.
  induction l; constructor; [left; reflexivity | assumption].
Qed.

Lemma part_row_marked_refl (ids : list string) (l : list scrape_job_parts_row) :
  Forall2 (part_row_marked ids) l l.
Proof.
  induction l; constructor; [left; reflexivity | assumption].
Qed.

Lemma marked_only_refl (ids : list string) (d : DB) : marked_only ids d d.
Proof.
  split; [apply job_row_marked_refl | apply part_row_marked_refl].
Qed.

(** Marking after marking is marking, for the jobs of both. *)
Lemma marked_only_trans (ids1 ids2 : list string) (d1 d2 d3 : DB) :
  marked_only ids1 d1 d2 -> marked_only ids2 d2 d3 ->
  marked_only (ids1 ++ ids2) d1 d3.
Proof.
  intros [Hj12 Hp12] [Hj23 Hp23]. split.
  - clear Hp12 Hp23. revert Hj23. generalize (scrape_jobs d3).
    induction Hj12 as [| a b l1 l2 Hab _ IH]; intros l3 H23; inversion H23; subst;
      constructor; [| apply IH; assumption].
    match goal with H : job_row_marked ids2 b _ |- _ => destruct H as [-> | [-> Hin]] end;
      destruct Hab as [-> | [-> Hin']]; unfold job_row_marked;
      rewrite ?in_app_iff; cbn in *; auto.
  - clear Hj12 Hj23. revert Hp23. generalize (scrape_job_parts d3).
    induction Hp12 as [| a b l1 l2 Hab _ IH]; intros l3 H23; inversion H23; subst;
      constructor; [| apply IH; assumption].
    match goal with H : part_row_marked ids2 b _ |- _ => destruct H as [-> | [-> Hin]] end;
      destruct Hab as [-> | [-> Hin']]; unfold part_row_marked;
      rewrite ?in_app_iff; cbn in *; auto.
Qed.

Lemma update_jobs_status_marks (id : uuid) (d : DB) :
  marked_only [id] d (update_jobs_status "ongoing" id d).
Proof.
  split; cbn [update_jobs_status scrape_jobs scrape_job_parts];
    [| apply part_row_marked_refl].
  induction (scrape_jobs d) as [| a l IH]; cbn; constructor; [| exact IH].
  destruct (sj_id a =? id)%string eqn:E; [| left; reflexivity].
  apply String.eqb_eq in E. right. split; [reflexivity | left; auto].
Qed.

Lemma update_parts_status_marks (id : uuid) (d : DB) :
  marked_only [id] d (update_parts_status "ongoing" id d).
Proof.
  split; cbn [update_parts_status scrape_jobs scrape_job_parts];
    [apply job_row_marked_refl |].
  induction (scrape_job_parts d) as [| a l IH]; cbn; constructor; [| exact IH].
  destruct (sjp_job_id a =? id)%string eqn:E; [| left; reflexivity].
  apply String.eqb_eq in E. right. split; [reflexivity | left; auto].
Qed.

Lemma marked_only_more (ids ids' : list string) (d d' : DB) :
  (forall id, In id ids -> In id ids') ->
  marked_only ids d d' -> marked_only ids' d d'.
Proof.
  intros Hsub [Hj Hp]. split.
  - eapply Forall2_impl; [| exact Hj]. intros a b [H | [H Hin]]; [left | right]; auto.
  - eapply Forall2_impl; [| exact Hp]. intros a b [H | [H Hin]]; [left | right]; auto.
Qed.

(** A turn marks rows of its own job and nothing else. *)
Lemma job_iteration_marks (w : World) (u : option string) (job : ScrapeJob)
      (m m' : Machine) :
  job_iteration w u job m = (inr tt, m') ->
  marked_only [job_id job] (db m) (db m').
Proof.
  intros Hrun.
  destruct (job_iteration_cases w u job m m' Hrun)
    as [_ _ Hdb _ | _ _ Hdb _ | _ _ Hdb _ | v _ _ Hdb _]; rewrite Hdb.
  - apply marked_only_refl.
  - apply marked_only_refl.
  - apply update_jobs_status_marks.
  - eapply marked_only_more;
      [| exact (marked_only_trans _ _ _ _ _
                  (update_jobs_status_marks (job_id job) (db m))
                  (update_parts_status_marks (job_id job) _))].
    intros id [H | [H | []]]; left; exact H.
Qed.

Lemma process_jobs_marks (w : World) (u : option string) (jobs : list ScrapeJob) :
  forall m m',
    process_jobs w u jobs m = (inr tt, m') ->
    marked_only (map job_id jobs) (db m) (db m').
Proof.
  induction jobs as [| job rest IH]; intros m m' Hrun.
  - injection Hrun as <-. apply marked_only_refl.
  - destruct (job_iteration_returns w u job m) as (m1 & Hturn & _).
    rewrite (process_jobs_cons w u job rest m m1 Hturn) in Hrun.
    exact (marked_only_trans [job_id job] _ _ _ _
             (job_iteration_marks w u job m m1 Hturn) (IH m1 m' Hrun)).
Qed.

(** Once the batch is in, the pass is the loop over it: the store and the
    trace the pass ends with are those the loop ends with. *)
Lemma serve_after_fetch (w : World) (req : Request) (m : Machine)
      (jobs : list ScrapeJob) :
  req_method req <> "OPTIONS" ->
  client_ready w ->
  rpc_answer w (trace m) "get_undone_scrape_jobs" = inr (mkRpcAnswer (Some jobs) None) ->
  exists m',
    process_jobs w (env_get w "REDIS_URL") jobs (at_loop m) = (inr tt, m')
    /\ db (snd (serve w req m)) = db m'
    /\ trace (snd (serve w req m)) = trace m'.
Proof.
  intros Hreq Hready Hrpc. rewrite (serve_runs_pass w req m Hreq).
  destruct jobs as [| job rest].
  - rewrite (pass_no_jobs w m (Some []) Hready Hrpc (or_intror eq_refl)).
    exists (at_loop m). repeat split.
  - destruct (process_jobs_returns w (env_get w "REDIS_URL") (job :: rest) (at_loop m))
      as (m' & _ & _ & Hloop & _).
    rewrite (pass_batch w m m' job rest Hready Hrpc Hloop).
    exists m'. repeat split. exact Hloop.
Qed.

(** The calls of a pass whose batch came in: the batch fetch, then what the
    loop added. *)
Lemma serve_calls (w : World) (req : Request) (m : Machine) (jobs : list ScrapeJob) :
  req_method req <> "OPTIONS" ->
  client_ready w ->
  rpc_answer w (trace m) "get_undone_scrape_jobs" = inr (mkRpcAnswer (Some jobs) None) ->
  exists evs,
    new_events m (snd (serve w req m)) = ev_fetch_batch :: evs
    /\ filter is_submission evs = map (ev_submit (env_get w "REDIS_URL")) jobs
    /\ Forall (fun ev => is_submission ev = true \/ marks_a_job_of jobs ev) evs.
Proof.
  intros Hreq Hready Hrpc.
  destruct (serve_after_fetch w req m jobs Hreq Hready Hrpc) as (m' & Hloop & _ & Htr).
  destruct (process_jobs_trace w _ jobs _ _ Hloop) as (evs & Hevs & Hsub & Hall).
  exists evs. split; [| split; assumption].
  apply new_events_app. rewrite Htr, Hevs. cbn [at_loop trace].
  rewrite <- app_assoc. reflexivity.
Qed.

(* ------------------------------------------------------------------ *)
(** * The entry point *)

(** X1.  A preflight request ([OPTIONS]) is answered 200 "ok" with the CORS
    headers and nothing else happens: no variable is read, no call is made,
    the store and the arrays are as they were - whatever the configuration
    and the collaborators are like.  Every other method runs the pass, and
    the same pass: the method is looked at for nothing else. *)
Theorem X1_preflight_and_methods (w : World) (m : Machine) :
  (forall req,
      req_method req = "OPTIONS" ->
      serve w req m = (mkResponse 200 corsHeaders (BodyText "ok"), m))
  /\ (forall req req',
         req_method req <> "OPTIONS" ->
         req_method req' <> "OPTIONS" ->
         serve w req m = serve w req' m).
Proof.
  split.
  - intros req H. unfold serve. rewrite H. reflexivity.
  - intros req req' H H'.
    rewrite (serve_runs_pass w req m H), (serve_runs_pass w req' m H'). reflexivity.
Qed.

Lemma X1_witness :
  serve world_down (mkRequest "OPTIONS") (boot db_half_done)
  = (mkResponse 200 corsHeaders (BodyText "ok"), boot db_half_done)
  /\ serve world_x_throws (mkRequest "GET") (boot empty_db)
     = serve world_x_throws (mkRequest "options") (boot empty_db).
Proof.
  split.
  - apply (proj1 (X1_preflight_and_methods world_down (boot db_half_done))).
    reflexivity.
  - apply (proj2 (X1_preflight_and_methods world_x_throws (boot empty_db)));
      discriminate.
Defined.

(** X2.  When the batch fetch fails - the rpc comes back with an error,
    whatever data comes with it, or the call throws - the pass ends there:
    the answer is 500 with [success: false] and the store's (or the
    exception's) message, the batch fetch is the only call made, nothing was
    submitted and the store is as it was. *)
Theorem X2_batch_fetch_failure (w : World) (req : Request) (m : Machine) :
  req_method req <> "OPTIONS" ->
  client_ready w ->
  (forall d queryError,
      rpc_answer w (trace m) "get_undone_scrape_jobs"
      = inr (mkRpcAnswer d (Some queryError)) ->
      serve w req m
      = (mkResponse 500 jsonHeaders
           (BodyError false (pg_message queryError)
                      (now w (trace m ++ [ev_fetch_batch]))),
         mkMachine (db m) (trace m ++ [ev_fetch_batch])
                   (processedJobs m) (failedJobs m)))
  /\ (forall e,
         rpc_answer w (trace m) "get_undone_scrape_jobs" = inl e ->
         serve w req m
         = (mkResponse 500 jsonHeaders
              (BodyError false (message e) (now w (trace m ++ [ev_fetch_batch]))),
            mkMachine (db m) (trace m ++ [ev_fetch_batch])
                      (processedJobs m) (failedJobs m))).
Proof.
  intros Hreq Hready. rewrite (serve_runs_pass w req m Hreq). split.
  - intros d qe Hrpc. rewrite (pass_rpc_error w m d qe Hready Hrpc). reflexivity.
  - intros e Hrpc. rewrite (pass_rpc_throws w m e Hready Hrpc). reflexivity.
Qed.

Lemma X2_witness :
  client_ready world_fetch_denied
  /\ serve world_fetch_denied post (boot db_half_done)
     = (mkResponse 500 jsonHeaders
          (BodyError false "function get_undone_scrape_jobs() does not exist"
                     "2024-05-01T12:00:00.000Z"),
        mkMachine db_half_done [ev_fetch_batch] [] []).
Proof.
  split; [repeat split |].
  apply (proj1 (X2_batch_fetch_failure world_fetch_denied post (boot db_half_done)
                                       ltac:(discriminate)
                                       ltac:(repeat split))
               None
               (mkPostgrestError "function get_undone_scrape_jobs() does not exist")).
  reflexivity.
Defined.

(** X3.  In a pass whose batch came in, the submissions it makes are one
    POST per job of the batch, in the order of the batch, each to
    [<REDIS_URL>/api/jobs/submit] with the job's five fields as they came:
    no job is skipped, none is sent twice, none out of turn - whatever
    happens to the jobs before it. *)
Theorem X3_submissions_follow_the_batch (w : World) (req : Request) (m : Machine)
        (jobs : list ScrapeJob) :
  req_method req <> "OPTIONS" ->
  client_ready w ->
  rpc_answer w (trace m) "get_undone_scrape_jobs" = inr (mkRpcAnswer (Some jobs) None) ->
  filter is_submission (new_events m (snd (serve w req m)))
  = map (fun job =>
           EvFetch (submit_url (env_get w "REDIS_URL")) "POST"
                   (mkJobData (job_id job) (profile_id job) (scraper_engine job)
                              (created_at job) (job_parts job)))
        jobs.
Proof.
  intros Hreq Hready Hrpc.
  destruct (serve_calls w req m jobs Hreq Hready Hrpc) as (evs & Hnew & Hsub & _).
  rewrite Hnew. cbn [filter is_submission ev_fetch_batch]. exact Hsub.
Qed.

Lemma X3_witness :
  client_ready world_x_throws
  /\ filter is_submission
            (new_events (boot empty_db) (snd (serve world_x_throws post (boot empty_db))))
     = [ EvFetch "http://flask.example/api/jobs/submit" "POST"
                 (mkJobData "job-x" "profile-1" "google_maps"
                            "2024-05-01T10:00:00+00:00" (job_parts jobX));
         EvFetch "http://flask.example/api/jobs/submit" "POST"
                 (mkJobData "job-y" "profile-2" "google_maps"
                            "2024-05-01T11:00:00+00:00" (job_parts jobY)) ].
Proof.
  split; [repeat split |].
  apply (X3_submissions_follow_the_batch world_x_throws post (boot empty_db)
                                         [jobX; jobY]).
  - discriminate.
  - repeat split.
  - reflexivity.
Defined.

(** X4.  The only store writes a pass can send are the two filtered updates
    of the loop: each sets [status] to "ongoing", on [scrape_jobs] by [id] or
    on [scrape_job_parts] by [job_id], for the identifier of a job of the
    batch.  The batch itself is fetched once, as the first call. *)
Theorem X4_writes_of_a_pass (w : World) (req : Request) (m : Machine)
        (jobs : list ScrapeJob) :
  req_method req <> "OPTIONS" ->
  client_ready w ->
  rpc_answer w (trace m) "get_undone_scrape_jobs" = inr (mkRpcAnswer (Some jobs) None) ->
  exists evs,
    new_events m (snd (serve w req m)) = EvRpc "get_undone_scrape_jobs" :: evs
    /\ (forall fn, ~ In (EvRpc fn) evs)
    /\ (forall table status column value,
           In (EvUpdate table status column value) evs ->
           status = "ongoing"
           /\ (exists job, In job jobs /\ value = job_id job)
           /\ ((table = "scrape_jobs" /\ column = "id")
               \/ (table = "scrape_job_parts" /\ column = "job_id"))).
Proof.
  intros Hreq Hready Hrpc.
  destruct (serve_calls w req m jobs Hreq Hready Hrpc) as (evs & Hnew & _ & Hall).
  exists evs. split; [exact Hnew |]. rewrite Forall_forall in Hall. split.
  - intros fn Hin. destruct (Hall _ Hin) as [H | (job & _ & [H | H])]; discriminate H.
  - intros table status column value Hin.
    destruct (Hall _ Hin) as [H | (job & Hjob & [H | H])]; [discriminate H | |];
      unfold ev_mark_job, ev_mark_parts in H; injection H as -> -> -> ->;
      (split; [reflexivity |]); (split; [exists job; auto |]); auto.
Qed.

Lemma X4_witness :
  client_ready world_stored
  /\ exists evs,
      new_events (boot db_half_done) (snd (serve world_stored post (boot db_half_done)))
      = EvRpc "get_undone_scrape_jobs" :: evs
      /\ forall table status column value,
          In (EvUpdate table status column value) evs ->
          status = "ongoing"
          /\ (exists job, In job stored_batch /\ value = job_id job)
          /\ ((table = "scrape_jobs" /\ column = "id")
              \/ (table = "scrape_job_parts" /\ column = "job_id")).
Proof.
  split; [repeat split |].
  destruct (X4_writes_of_a_pass world_stored post (boot db_half_done) stored_batch
                                ltac:(discriminate) ltac:(repeat split) eq_refl)
    as (evs & Hnew & _ & Hupd).
  exists evs. split; assumption.
Defined.

(** Whatever a pass does to the store, it does by marking rows of batch
    jobs. *)
Lemma serve_marks_only (w : World) (req : Request) (m : Machine) :
  marked_only (batch_ids (rpc_answer w (trace m) "get_undone_scrape_jobs"))
              (db m) (db (snd (serve w req m))).
Proof.
  destruct (String.eqb_spec (req_method req) "OPTIONS") as [Hopt | Hreq].
  { unfold serve. rewrite Hopt. apply marked_only_refl. }
  rewrite (serve_runs_pass w req m Hreq).
  destruct (truthy_env (env_get w "SERVICE_ROLE_KEY")) eqn:Hkey.
  2:{ rewrite (pass_missing_key w m Hkey). apply marked_only_refl. }
  destruct (truthy_env (env_get w "REDIS_URL")) eqn:Hflask.
  2:{ rewrite (pass_missing_flask_url w m Hkey Hflask). apply marked_only_refl. }
  destruct (createClient w (env_get w "SUPABASE_URL") (env_get w "SERVICE_ROLE_KEY"))
    as [e |] eqn:Hclient.
  { rewrite (pass_client_throws w m e Hkey Hflask Hclient). apply marked_only_refl. }
  assert (Hready : client_ready w) by (repeat split; assumption).
  destruct (rpc_answer w (trace m) "get_undone_scrape_jobs") as [e | [d [qe |]]] eqn:Hrpc.
  { rewrite (pass_rpc_throws w m e Hready Hrpc). apply marked_only_refl. }
  { rewrite (pass_rpc_error w m d qe Hready Hrpc). apply marked_only_refl. }
  destruct d as [[| job rest] |].
  - rewrite (pass_no_jobs w m (Some []) Hready Hrpc (or_intror eq_refl)).
    apply marked_only_refl.
  - destruct (process_jobs_returns w (env_get w "REDIS_URL") (job :: rest) (at_loop m))
      as (m' & _ & _ & Hloop & _).
    rewrite (pass_batch w m m' job rest Hready Hrpc Hloop).
    exact (process_jobs_marks w _ _ _ _ Hloop).
  - rewrite (pass_no_jobs w m None Hready Hrpc (or_introl eq_refl)).
    apply marked_only_refl.
Qed.


Lemma Forall2_In_r {A B : Type} (R : A -> B -> Prop) (l : list A) (l' : list B) :
  Forall2 R l l' -> forall b, In b l' -> exists a, In a l /\ R a b.
Proof.
  induction 1 as [| a b0 l l' Hab _ IH]; intros b Hin; [contradiction |].
  destruct Hin as [<- | Hin].
  - exists a. split; [left; reflexivity | exact Hab].
  - destruct (IH b Hin) as (a' & Ha' & HR). exists a'. split; [right |]; assumption.
Qed.


Lemma client_readyb_spec (w : World) : client_readyb w = true <-> client_ready w.
Proof.
  unfold client_readyb, client_ready. rewrite !andb_true_iff.
  destruct (createClient w (env_get w "SUPABASE_URL") (env_get w "SERVICE_ROLE_KEY"));
    intuition congruence.
Qed.

(** A pass the configuration stops leaves the machine as it found it. *)
Lemma serve_not_ready (w : World) (req : Request) (m : Machine) :
  client_readyb w = false -> snd (serve w req m) = m.
Proof.
  intros Hnot.
  destruct (String.eqb_spec (req_method req) "OPTIONS") as [Hopt | Hreq].
  { unfold serve. rewrite Hopt. reflexivity. }
  rewrite (serve_runs_pass w req m Hreq).
  destruct (truthy_env (env_get w "SERVICE_ROLE_KEY")) eqn:Hkey.
  2:{ rewrite (pass_missing_key w m Hkey). reflexivity. }
  destruct (truthy_env (env_get w "REDIS_URL")) eqn:Hflask.
  2:{ rewrite (pass_missing_flask_url w m Hkey Hflask). reflexivity. }
  destruct (createClient w (env_get w "SUPABASE_URL") (env_get w "SERVICE_ROLE_KEY"))
    as [e |] eqn:Hclient.
  { rewrite (pass_client_throws w m e Hkey Hflask Hclient). reflexivity. }
  unfold client_readyb in Hnot. rewrite Hkey, Hflask, Hclient in Hnot.
  discriminate Hnot.
Qed.

(** Marking rows of no job is changing nothing. *)
Lemma marked_only_nil (d d' : DB) : marked_only [] d d' -> d' = d.
Proof.
  intros [Hj Hp]. destruct d as [js ps], d' as [js' ps']. cbn in Hj, Hp. f_equal.
  - induction Hj as [| a b l l' Hab _ IH]; [reflexivity |].
    destruct Hab as [-> | [_ []]]. f_equal. exact IH.
  - induction Hp as [| a b l l' Hab _ IH]; [reflexivity |].
    destruct Hab as [-> | [_ []]]. f_equal. exact IH.
Qed.

(** What a request does to the store, it does to rows of the batch it
    fetched. *)
Lemma serve_marks_fetched (w : World) (req : Request) (m : Machine) :
  marked_only (fetched_ids w req m) (db m) (db (snd (serve w req m))).
Proof.
  unfold fetched_ids.
  destruct (String.eqb_spec (req_method req) "OPTIONS") as [Hopt | Hreq].
  { unfold serve. rewrite Hopt. apply marked_only_refl. }
  destruct (client_readyb w) eqn:Hready.
  - exact (serve_marks_only w req m).
  - rewrite (serve_not_ready w req m Hready). apply marked_only_refl.
Qed.

(** X5.  Whatever a request does to the store, it does by setting rows of
    jobs of the batch it fetched to "ongoing": the two relations keep their
    rows, in number and in order; each row is afterwards either exactly as
    it was, or as it was with [status] "ongoing" - and then it is a job of
    that batch, or a part of one.  No row is added or removed, no other
    column changes, no row of a job outside the batch is touched.  And when
    no batch was fetched - a preflight request, a configuration that stops
    the pass, a fetch that fails or brings nothing - the store is exactly as
    it was, whatever the store would have answered. *)
Theorem X5_pass_only_marks_batch_rows (w : World) (req : Request) (m : Machine) :
  marked_only (fetched_ids w req m) (db m) (db (snd (serve w req m)))
  /\ (req_method req = "OPTIONS"
      \/ ~ client_ready w
      \/ batch_ids (rpc_answer w (trace m) "get_undone_scrape_jobs") = [] ->
      db (snd (serve w req m)) = db m)
  /\ length (scrape_jobs (db (snd (serve w req m)))) = length (scrape_jobs (db m))
  /\ length (scrape_job_parts (db (snd (serve w req m))))
     = length (scrape_job_parts (db m))
  /\ (forall sj,
         In sj (scrape_jobs (db (snd (serve w req m)))) ->
         In sj (scrape_jobs (db m))
         \/ (sj_status sj = "ongoing" /\ In (sj_id sj) (fetched_ids w req m)))
  /\ (forall sjp,
         In sjp (scrape_job_parts (db (snd (serve w req m)))) ->
         In sjp (scrape_job_parts (db m))
         \/ (sjp_status sjp = "ongoing"
             /\ In (sjp_job_id sjp) (fetched_ids w req m))).
Proof.
  pose proof (serve_marks_fetched w req m) as Hmarks.
  split; [exact Hmarks |]. split.
  { intros Hnone. apply marked_only_nil.
    assert (Hids : fetched_ids w req m = []).
    { unfold fetched_ids. destruct Hnone as [Hopt | [Hnot | Hempty]].
      - rewrite Hopt. reflexivity.
      - destruct (req_method req =? "OPTIONS")%string; [reflexivity |].
        destruct (client_readyb w) eqn:Hb; [| reflexivity].
        apply client_readyb_spec in Hb. contradiction.
      - destruct (req_method req =? "OPTIONS")%string; [reflexivity |].
        destruct (client_readyb w); [exact Hempty | reflexivity]. }
    rewrite <- Hids. exact Hmarks. }
  destruct Hmarks as [Hj Hp].
  split; [symmetry; exact (Forall2_length Hj) |].
  split; [symmetry; exact (Forall2_length Hp) |].
  split.
  - intros sj Hin. destruct (Forall2_In_r _ _ _ Hj sj Hin) as (a & Ha & [-> | [-> Hid]]).
    + left. exact Ha.
    + right. split; [reflexivity | exact Hid].
  - intros sjp Hin.
    destruct (Forall2_In_r _ _ _ Hp sjp Hin) as (a & Ha & [-> | [-> Hid]]).
    + left. exact Ha.
    + right. split; [reflexivity | exact Hid].
Qed.

(** A preflight request, and a request without the executor URL, to a world
    whose store would hand out a batch: the store stays as it is. *)
Lemma X5_witness :
  batch_ids (rpc_answer world_stored [] "get_undone_scrape_jobs") = ["job-x"; "job-y"]
  /\ db (snd (serve world_stored (mkRequest "OPTIONS") (boot db_half_done)))
     = db_half_done
  /\ ~ client_ready world_no_flask_url
  /\ db (snd (serve world_no_flask_url post (boot db_half_done))) = db_half_done.
Proof.
  split; [reflexivity |]. split.
  - apply (proj1 (proj2 (X5_pass_only_marks_batch_rows
                           world_stored (mkRequest "OPTIONS") (boot db_half_done)))).
    left. reflexivity.
  - assert (Hnot : ~ client_ready world_no_flask_url).
    { intros (_ & Hflask & _). discriminate Hflask. }
    split; [exact Hnot |].
    apply (proj1 (proj2 (X5_pass_only_marks_batch_rows
                           world_no_flask_url post (boot db_half_done)))).
    right. left. exact Hnot.
Defined.

(** X6.  The job-level update is sent in a turn exactly when the executor
    took the job - [fetch] came back in 200-299 with a body that parses and
    whose [success] is truthy.  In every other case (the call throws, the
    status is outside 200-299, the body does not parse, [success] is falsy
    or missing) the submission is the turn's only call and the store is as
    it was. *)
Theorem X6_store_update_needs_acceptance (w : World) (u : option string)
        (job : ScrapeJob) (m : Machine) :
  (In (ev_mark_job job) (new_events m (snd (job_iteration w u job m)))
   <-> accepted_by w u job m)
  /\ (~ accepted_by w u job m ->
      new_events m (snd (job_iteration w u job m)) = [ev_submit u job]
      /\ db (snd (job_iteration w u job m)) = db m).
Proof.
  destruct (job_iteration_returns w u job m) as (m' & Hrun & _).
  rewrite Hrun. cbn [snd].
  destruct (job_iteration_cases w u job m m' Hrun)
    as [Hno Htr Hdb _ | Hacc Htr Hdb _ | Hacc Htr Hdb _ | v Hacc Htr Hdb _];
    rewrite (new_events_app m m' _ Htr).
  - split; [split |].
    + intros [H | []]. discriminate H.
    + intros H. contradiction.
    + intros _. split; [reflexivity | exact Hdb].
  - split; [split |]; [intros _; exact Hacc | intros _; right; left; reflexivity |].
    intros H. contradiction.
  - split; [split |]; [intros _; exact Hacc | intros _; right; left; reflexivity |].
    intros H. contradiction.
  - split; [split |]; [intros _; exact Hacc | intros _; right; left; reflexivity |].
    intros H. contradiction.
Qed.

(** The server is overloaded: the job is not accepted, and the store stays
    as it is. *)
Lemma X6_witness :
  ~ accepted_by world_overloaded (Some "http://flask.example") jobX (boot db_half_done)
  /\ new_events (boot db_half_done)
                (snd (job_iteration world_overloaded (Some "http://flask.example") jobX
                                    (boot db_half_done)))
     = [ev_submit (Some "http://flask.example") jobX]
  /\ db (snd (job_iteration world_overloaded (Some "http://flask.example") jobX
                            (boot db_half_done)))
     = db_half_done.
Proof.
  assert (Hno : ~ accepted_by world_overloaded (Some "http://flask.example") jobX
                  (boot db_half_done)).
  { intros (r & v & flag & H1 & H2 & _). injection H1 as <-. discriminate H2. }
  split; [exact Hno |].
  exact (proj2 (X6_store_update_needs_acceptance
                  world_overloaded (Some "http://flask.example") jobX
                  (boot db_half_done)) Hno).
Defined.

Lemma update_jobs_status_reaches (status : string) (id : uuid) (d : DB) :
  (forall sj,
      In sj (scrape_jobs (update_jobs_status status id d)) ->
      sj_id sj = id ->
      sj_status sj = status)
  /\ (forall sj,
         In sj (scrape_jobs d) ->
         sj_id sj <> id ->
         In sj (scrape_jobs (update_jobs_status status id d)))
  /\ scrape_job_parts (update_jobs_status status id d) = scrape_job_parts d.
Proof.
  unfold update_jobs_status. cbn [scrape_jobs scrape_job_parts]. repeat split.
  - intros sj Hin Hid. apply in_map_iff in Hin. destruct Hin as (a & Heq & _).
    destruct (sj_id a =? id)%string eqn:E.
    + subst sj. reflexivity.
    + subst sj. apply String.eqb_neq in E. contradiction.
  - intros sj Hin Hid. apply in_map_iff. exists sj. split; [| exact Hin].
    apply String.eqb_neq in Hid. rewrite Hid. reflexivity.
Qed.

(** X7.  The executor took the job and the job-level update went through,
    but the parts update fails - it comes back with an error, or throws.
    The turn then records the one failure "DB parts update error: <message>"
    (the thrown message, if it threw) and no success; the job-level update is
    not taken back: every [scrape_jobs] row of the job is "ongoing", while
    [scrape_job_parts] is exactly as it was. *)
Theorem X7_parts_update_failure (w : World) (u : option string) (job : ScrapeJob)
        (m : Machine) (r : FlaskResponse) (v : Json) (flag : option Json)
        (answer : Outcome (option PostgrestError)) :
  fetch_answer w (trace m) (submit_url u) (jobData job) = inr r ->
  fr_ok r = true ->
  fr_json r = inr v ->
  get_prop v "success" = inr flag ->
  truthy flag = true ->
  update_answer w (trace m ++ [ev_submit u job])
                "scrape_jobs" "ongoing" "id" (job_id job) = inr None ->
  update_answer w (trace m ++ [ev_submit u job; ev_mark_job job])
                "scrape_job_parts" "ongoing" "job_id" (job_id job) = answer ->
  answer <> inr None ->
  exists m',
    job_iteration w u job m = (inr tt, m')
    /\ processedJobs m' = processedJobs m
    /\ failedJobs m'
       = (failedJobs m
            ++ [mkFailed (job_id job)
                  (update_failure "DB parts update error: " answer)])%list
    /\ (forall sj,
           In sj (scrape_jobs (db m')) -> sj_id sj = job_id job ->
           sj_status sj = "ongoing")
    /\ scrape_job_parts (db m') = scrape_job_parts (db m).
Proof.
  intros H Hok Hv Hflag Htruthy Hjob Hparts Hfail.
  pose proof (iteration_job_marked w u job m r v flag answer
                H Hok Hv Hflag Htruthy Hjob Hparts) as Hrun.
  destruct (update_jobs_status_reaches "ongoing" (job_id job) (db m))
    as (Hall & _ & Hsame).
  destruct answer as [e | [e | ]]; [| | congruence];
    eexists; (split; [exact Hrun |]); cbn [db processedJobs failedJobs];
    repeat split; assumption.
Qed.

Lemma X7_witness :
  exists m',
    job_iteration world_parts_denied (Some "http://flask.example") fetched_jobX
                  (boot db_half_done) = (inr tt, m')
    /\ processedJobs m' = []
    /\ failedJobs m'
       = [mkFailed "job-x"
            "DB parts update error: permission denied for table scrape_job_parts"]
    /\ (forall sj,
           In sj (scrape_jobs (db m')) -> sj_id sj = "job-x" ->
           sj_status sj = "ongoing")
    /\ scrape_job_parts (db m') = scrape_job_parts db_half_done.
Proof.
  apply (X7_parts_update_failure
           world_parts_denied (Some "http://flask.example") fetched_jobX
           (boot db_half_done) accepted
           (JObj [("success", JBool true); ("queued", JNum 1)]) (Some (JBool true))
           (inr (Some (mkPostgrestError "permission denied for table scrape_job_parts"))));
    try reflexivity.
  discriminate.
Defined.

(** X8.  The executor took the job and both updates went through: the turn
    records no failure and one success, which carries the executor's parsed
    answer as it came; every [scrape_jobs] row of the job is "ongoing" and
    the rows of the other jobs are still there as they were. *)
Theorem X8_accepted_and_marked (w : World) (u : option string) (job : ScrapeJob)
        (m : Machine) (r : FlaskResponse) (v : Json) (flag : option Json) :
  fetch_answer w (trace m) (submit_url u) (jobData job) = inr r ->
  fr_ok r = true ->
  fr_json r = inr v ->
  get_prop v "success" = inr flag ->
  truthy flag = true ->
  update_answer w (trace m ++ [ev_submit u job])
                "scrape_jobs" "ongoing" "id" (job_id job) = inr None ->
  update_answer w (trace m ++ [ev_submit u job; ev_mark_job job])
                "scrape_job_parts" "ongoing" "job_id" (job_id job) = inr None ->
  exists m',
    job_iteration w u job m = (inr tt, m')
    /\ processedJobs m' = (processedJobs m ++ [mkProcessed (job_id job) v])%list
    /\ failedJobs m' = failedJobs m
    /\ (forall sj,
           In sj (scrape_jobs (db m')) -> sj_id sj = job_id job ->
           sj_status sj = "ongoing")
    /\ (forall sj,
           In sj (scrape_jobs (db m)) -> sj_id sj <> job_id job ->
           In sj (scrape_jobs (db m'))).
Proof.
  intros H Hok Hv Hflag Htruthy Hjob Hparts.
  pose proof (iteration_job_marked w u job m r v flag (inr None)
                H Hok Hv Hflag Htruthy Hjob Hparts) as Hrun.
  destruct (update_jobs_status_reaches "ongoing" (job_id job) (db m))
    as (Hall & Hframe & _).
  eexists. split; [exact Hrun |]. cbn [db processedJobs failedJobs].
  repeat split; assumption.
Qed.

Lemma X8_witness :
  exists m',
    job_iteration world_accepting_x (Some "http://flask.example") fetched_jobX
                  (boot db_half_done) = (inr tt, m')
    /\ processedJobs m'
       = [mkProcessed "job-x" (JObj [("success", JBool true); ("queued", JNum 1)])]
    /\ failedJobs m' = []
    /\ (forall sj,
           In sj (scrape_jobs (db m')) -> sj_id sj = "job-x" ->
           sj_status sj = "ongoing")
    /\ (forall sj,
           In sj (scrape_jobs db_half_done) -> sj_id sj <> "job-x" ->
           In sj (scrape_jobs (db m'))).
Proof.
  apply (X8_accepted_and_marked
           world_accepting_x (Some "http://flask.example") fetched_jobX
           (boot db_half_done) accepted
           (JObj [("success", JBool true); ("queued", JNum 1)]) (Some (JBool true)));
    reflexivity.
Defined.

(** X9.  An answer whose body cannot be used is a failure of that job and
    nothing more: when the status is outside 200-299 and reading the body as
    text throws, or the status is in 200-299 and parsing the body as JSON
    throws, the turn records the thrown message for the job, makes no store
    call and leaves the store as it was. *)
Theorem X9_unreadable_answer (w : World) (u : option string) (job : ScrapeJob)
        (m : Machine) (r : FlaskResponse) (e : Error) :
  fetch_answer w (trace m) (submit_url u) (jobData job) = inr r ->
  (fr_ok r = false /\ fr_text r = inl e) \/ (fr_ok r = true /\ fr_json r = inl e) ->
  job_iteration w u job m
  = (inr tt, mkMachine (db m) (trace m ++ [ev_submit u job]) (processedJobs m)
               (failedJobs m ++ [mkFailed (job_id job) (message e)])).
Proof.
  intros H [[Hok He] | [Hok He]]; unfold_handler; rewrite H; cbn; rewrite Hok; cbn;
    rewrite He; reflexivity.
Qed.

Lemma X9_witness :
  fr_ok html_page = true
  /\ job_iteration world_html (Some "http://flask.example") jobX (boot db_half_done)
     = (inr tt, mkMachine db_half_done [ev_submit (Some "http://flask.example") jobX] []
                  [mkFailed "job-x" "Unexpected token '<', is not valid JSON"]).
Proof.
  split; [reflexivity |].
  apply (X9_unreadable_answer world_html (Some "http://flask.example") jobX
                              (boot db_half_done) html_page
                              (mkError "Unexpected token '<', is not valid JSON")).
  - reflexivity.
  - right. split; reflexivity.
Defined.

(** What a pass that does not throw answers. *)
Lemma pass_answer_shape (w : World) (m : Machine) :
  match pass w m with
  | (inr response, _) =>
      resp_status response = 200
      /\ resp_headers response = jsonHeaders
      /\ ((exists ts, resp_body response = BodyNoJobs "No undone jobs found" ts)
          \/ (exists msg ps fs total ts,
                 resp_body response = BodySummary true msg ps fs total ts))
  | (inl _, _) => True
  end.
Proof.
  destruct (truthy_env (env_get w "SERVICE_ROLE_KEY")) eqn:Hkey.
  2:{ rewrite (pass_missing_key w m Hkey). exact I. }
  destruct (truthy_env (env_get w "REDIS_URL")) eqn:Hflask.
  2:{ rewrite (pass_missing_flask_url w m Hkey Hflask). exact I. }
  destruct (createClient w (env_get w "SUPABASE_URL") (env_get w "SERVICE_ROLE_KEY"))
    as [e |] eqn:Hclient.
  { rewrite (pass_client_throws w m e Hkey Hflask Hclient). exact I. }
  assert (Hready : client_ready w) by (repeat split; assumption).
  destruct (rpc_answer w (trace m) "get_undone_scrape_jobs") as [e | [d [qe |]]] eqn:Hrpc.
  { rewrite (pass_rpc_throws w m e Hready Hrpc). exact I. }
  { rewrite (pass_rpc_error w m d qe Hready Hrpc). exact I. }
  destruct d as [[| job rest] |].
  - rewrite (pass_no_jobs w m (Some []) Hready Hrpc (or_intror eq_refl)).
    repeat split. left. eexists. reflexivity.
  - destruct (process_jobs_returns w (env_get w "REDIS_URL") (job :: rest) (at_loop m))
      as (m' & _ & _ & Hloop & _).
    rewrite (pass_batch w m m' job rest Hready Hrpc Hloop).
    repeat split. right. unfold summary_response. cbn. eexists _, _, _, _, _.
    reflexivity.
  - rewrite (pass_no_jobs w m None Hready Hrpc (or_introl eq_refl)).
    repeat split. left. eexists. reflexivity.
Qed.

(** X10.  Whatever the request, the configuration and the collaborators do,
    the caller gets an answer of one of three shapes, each with the CORS
    headers: the preflight "ok" (200); a 200 JSON answer that is either the
    "No undone jobs found" message or a summary with [success: true]; or a
    500 JSON answer [{success: false, error, timestamp}].  The status is 500
    exactly when the body is the error body. *)
Theorem X10_shape_of_every_answer (w : World) (req : Request) (m : Machine) :
  (forall h, In h corsHeaders -> In h (resp_headers (fst (serve w req m))))
  /\ ((req_method req = "OPTIONS"
       /\ fst (serve w req m) = mkResponse 200 corsHeaders (BodyText "ok"))
      \/ (req_method req <> "OPTIONS"
          /\ resp_headers (fst (serve w req m)) = jsonHeaders
          /\ ((resp_status (fst (serve w req m)) = 200
               /\ ((exists ts,
                       resp_body (fst (serve w req m))
                       = BodyNoJobs "No undone jobs found" ts)
                   \/ (exists msg ps fs total ts,
                          resp_body (fst (serve w req m))
                          = BodySummary true msg ps fs total ts)))
              \/ (resp_status (fst (serve w req m)) = 500
                  /\ exists msg ts,
                      resp_body (fst (serve w req m)) = BodyError false msg ts)))).
Proof.
  destruct (String.eqb_spec (req_method req) "OPTIONS") as [Hopt | Hreq].
  - unfold serve. rewrite Hopt. cbn. split; [auto |]. left. auto.
  - rewrite (serve_runs_pass w req m Hreq).
    pose proof (pass_answer_shape w m) as Hshape.
    destruct (pass w m) as [[e | response] m']; cbn [fst].
    + split.
      * intros h Hin. unfold error_response. cbn [resp_headers].
        unfold jsonHeaders. apply in_or_app. left. exact Hin.
      * right. split; [exact Hreq |]. split; [reflexivity |]. right.
        split; [reflexivity |]. eexists _, _. reflexivity.
    + destruct Hshape as (Hstatus & Hheaders & Hbody). split.
      * intros h Hin. rewrite Hheaders. unfold jsonHeaders. apply in_or_app.
        left. exact Hin.
      * right. split; [exact Hreq |]. split; [exact Hheaders |]. left.
        split; assumption.
Qed.

(* ------------------------------------------------------------------ *)
(** * The query after the handler's updates *)

Lemma undone_rows_spec (d : DB) (sj : scrape_jobs_row) (sjp : scrape_job_parts_row) :
  In (sj, sjp) (undone_rows d)
  <-> In sj (scrape_jobs d) /\ In sjp (scrape_job_parts d)
      /\ sjp_job_id sjp = sj_id sj
      /\ sj_status sj = "undone" /\ sjp_status sjp = "undone".
Proof.
  apply undone_rows_In.
Qed.

(** Marking never makes a row count for the query: a pair of undone rows
    after it was a pair of undone rows before it. *)
Lemma undone_rows_shrink (ids : list string) (d d' : DB)
      (sj : scrape_jobs_row) (sjp : scrape_job_parts_row) :
  marked_only ids d d' ->
  In (sj, sjp) (undone_rows d') -> In (sj, sjp) (undone_rows d).
Proof.
  intros [Hj Hp] Hin. apply undone_rows_spec in Hin.
  destruct Hin as (Hsj & Hsjp & Hid & Hs & Hps). apply undone_rows_spec.
  destruct (Forall2_In_r _ _ _ Hj sj Hsj) as (a & Ha & [-> | [-> _]]);
    [| cbn in Hs; discriminate Hs].
  destruct (Forall2_In_r _ _ _ Hp sjp Hsjp) as (b & Hb & [-> | [-> _]]);
    [| cbn in Hps; discriminate Hps].
  auto.
Qed.


Lemma returned_keys_rows (d : DB) (k : group_key) :
  In k (map row_key (get_undone_scrape_jobs d))
  <-> exists sj sjp, In (sj, sjp) (undone_rows d) /\ key_of sj = k.
Proof.
  apply returned_keys.
Qed.

Lemma returned_parts_rows (d : DB) (row : undone_row) (po : part_object) :
  In row (get_undone_scrape_jobs d) ->
  In po (ur_job_parts row)
  <-> exists sj sjp,
    In (sj, sjp) (undone_rows d) /\ key_of sj = row_key row
    /\ po = json_build_object sjp.
Proof.
  intros Hrow. unfold get_undone_scrape_jobs in Hrow.
  apply (Permutation_in _ (order_by_created_at_perm _)) in Hrow.
  rewrite (group_by_parts _ row Hrow). apply json_agg_In.
Qed.

Lemma key_of_id (sj : scrape_jobs_row) (k : group_key) :
  key_of sj = k -> sj_id sj = key_id k.
Proof.
  intros <-. reflexivity.
Qed.

(** A job none of whose rows is undone is not returned. *)
Lemma not_undone_not_returned (d : DB) (id : uuid) :
  (forall sj, In sj (scrape_jobs d) -> sj_id sj = id -> sj_status sj <> "undone") ->
  forall row, In row (get_undone_scrape_jobs d) -> ur_job_id row <> id.
Proof.
  intros Hnone row Hrow Hid.
  assert (Hkey : In (row_key row) (map row_key (get_undone_scrape_jobs d)))
    by (apply in_map; exact Hrow).
  apply returned_keys_rows in Hkey. destruct Hkey as (sj & sjp & Hin & Hk).
  apply undone_rows_spec in Hin. destruct Hin as (Hsj & _ & _ & Hs & _).
  apply (Hnone sj Hsj); [| exact Hs].
  rewrite (key_of_id sj _ Hk). exact Hid.
Qed.

(** X11.  Once the job-level update of a turn has gone through, the query
    no longer returns that job on the store the turn leaves - also when the
    parts update failed and the job's parts are still undone: a job marked
    "ongoing" is not fetched a second time. *)
Theorem X11_marked_job_is_not_fetched_again (w : World) (u : option string)
        (job : ScrapeJob) (m : Machine) (r : FlaskResponse) (v : Json)
        (flag : option Json) :
  fetch_answer w (trace m) (submit_url u) (jobData job) = inr r ->
  fr_ok r = true ->
  fr_json r = inr v ->
  get_prop v "success" = inr flag ->
  truthy flag = true ->
  update_answer w (trace m ++ [ev_submit u job])
                "scrape_jobs" "ongoing" "id" (job_id job) = inr None ->
  forall row,
    In row (get_undone_scrape_jobs (db (snd (job_iteration w u job m)))) ->
    ur_job_id row <> job_id job.
Proof.
  intros H Hok Hv Hflag Htruthy Hjob.
  pose proof (iteration_job_marked w u job m r v flag _
                H Hok Hv Hflag Htruthy Hjob eq_refl) as Hrun.
  rewrite Hrun. cbn [snd].
  destruct (update_jobs_status_reaches "ongoing" (job_id job) (db m)) as (Hall & _ & _).
  apply not_undone_not_returned. intros sj Hsj Hid.
  assert (Hin : In sj (scrape_jobs (update_jobs_status "ongoing" (job_id job) (db m)))).
  { destruct (update_answer w (trace m ++ [ev_submit u job; ev_mark_job job])
                "scrape_job_parts" "ongoing" "job_id" (job_id job)) as [e | [e | ]];
      exact Hsj. }
  rewrite (Hall sj Hin Hid). discriminate.
Qed.

(** jobX is accepted, its parts update is denied: part-x1 is still undone,
    and still the query does not return job-x any more. *)
Lemma X11_witness :
  In "job-x" (map ur_job_id (get_undone_scrape_jobs db_half_done))
  /\ In "undone"
        (map sjp_status
             (scrape_job_parts
                (db (snd (job_iteration world_parts_denied
                            (Some "http://flask.example") fetched_jobX
                            (boot db_half_done))))))
  /\ forall row,
      In row (get_undone_scrape_jobs
                (db (snd (job_iteration world_parts_denied
                            (Some "http://flask.example") fetched_jobX
                            (boot db_half_done))))) ->
      ur_job_id row <> "job-x".
Proof.
  split; [left; reflexivity |]. split; [left; reflexivity |].
  apply (X11_marked_job_is_not_fetched_again
           world_parts_denied (Some "http://flask.example") fetched_jobX
           (boot db_half_done) accepted
           (JObj [("success", JBool true); ("queued", JNum 1)]) (Some (JBool true)));
    reflexivity.
Defined.



(* ------------------------------------------------------------------ *)
(** * More about the query *)

(** X13.  Every row the query returns carries at least one part: the
    handler is never handed a job with an empty [job_parts].  And the query
    returns no row at all exactly when no undone job has an undone part. *)
Theorem X13_rows_have_parts (d : DB) :
  (forall row, In row (get_undone_scrape_jobs d) -> ur_job_parts row <> [])
  /\ (get_undone_scrape_jobs d = []
      <-> forall sj sjp,
        In sj (scrape_jobs d) -> In sjp (scrape_job_parts d) ->
        sjp_job_id sjp = sj_id sj ->
        sj_status sj = "undone" -> sjp_status sjp <> "undone").
Proof.
  split.
  - intros row Hrow Hnil.
    assert (Hkey : In (row_key row) (map row_key (get_undone_scrape_jobs d)))
      by (apply in_map; exact Hrow).
    apply returned_keys_rows in Hkey. destruct Hkey as (sj & sjp & Hin & Hk).
    assert (Hpo : In (json_build_object sjp) (ur_job_parts row)).
    { apply (returned_parts_rows d row _ Hrow). exists sj, sjp. auto. }
    rewrite Hnil in Hpo. contradiction.
  - split.
    + intros Hnil sj sjp Hsj Hsjp Hid Hs Hps.
      assert (Hk : In (key_of sj) (map row_key (get_undone_scrape_jobs d))).
      { apply returned_keys_rows. exists sj, sjp. split; [| reflexivity].
        apply undone_rows_spec. auto. }
      rewrite Hnil in Hk. contradiction.
    + intros Hnone. destruct (get_undone_scrape_jobs d) as [| row rest] eqn:E;
        [reflexivity | exfalso].
      assert (Hk : In (row_key row) (map row_key (get_undone_scrape_jobs d)))
        by (rewrite E; left; reflexivity).
      apply returned_keys_rows in Hk. destruct Hk as (sj & sjp & Hin & _).
      apply undone_rows_spec in Hin. destruct Hin as (Hsj & Hsjp & Hid & Hs & Hps).
      exact (Hnone sj sjp Hsj Hsjp Hid Hs Hps).
Qed.

Lemma X13_witness :
  In (mkUndoneRow "job-y" "profile-2" "google_maps" 1714561200000000
        [mkPartObject "part-y1" None (Some "dentist") (Some "Leeds") None (Some "UK")])
     (get_undone_scrape_jobs db_half_done)
  /\ forall row, In row (get_undone_scrape_jobs db_half_done) -> ur_job_parts row <> [].
Proof.
  split; [right; left; reflexivity |].
  exact (proj1 (X13_rows_have_parts db_half_done)).
Defined.

Lemma filter_none {A : Type} (f : A -> bool) (l : list A) :
  (forall x, In x l -> f x = false) -> filter f l = [].
Proof.
  induction l as [| a l IH]; intros H; [reflexivity |]. cbn.
  rewrite (H a (or_introl eq_refl)). apply IH. intros x Hx. apply H. right. exact Hx.
Qed.

Lemma unique_by_id (js : list scrape_jobs_row) (a b : scrape_jobs_row) :
  NoDup (map sj_id js) -> In a js -> In b js -> sj_id a = sj_id b -> a = b.
Proof.
  induction js as [| x js IH]; intros Hnd Ha Hb Hid; [contradiction |].
  cbn in Hnd. apply NoDup_cons_iff in Hnd. destruct Hnd as [Hx Hnd].
  destruct Ha as [-> | Ha], Hb as [-> | Hb]; auto.
  - exfalso. apply Hx. rewrite Hid. apply in_map. exact Hb.
  - exfalso. apply Hx. rewrite <- Hid. apply in_map. exact Ha.
Qed.

Lemma other_key (a b : scrape_jobs_row) :
  sj_id a <> sj_id b -> key_eqb (key_of a) (key_of b) = false.
Proof.
  intros Hne. destruct (key_eqb (key_of a) (key_of b)) eqn:E; [| reflexivity].
  apply key_eqb_eq in E. apply key_of_id in E. contradiction.
Qed.

(** The rows of the group of [sj0] that come from [sj0] itself. *)
Lemma own_segment (sj0 : scrape_jobs_row) (parts : list scrape_job_parts_row) :
  sj_status sj0 = "undone" ->
  filter (fun r => key_eqb (key_of (fst r)) (key_of sj0))
         (filter where_undone
                 (map (fun sjp => (sj0, sjp))
                      (filter (fun sjp => (sj_id sj0 =? sjp_job_id sjp)%string) parts)))
  = map (fun sjp => (sj0, sjp))
        (filter (fun sjp => (sj_id sj0 =? sjp_job_id sjp)%string
                            && (sjp_status sjp =? "undone")%string)
                parts).
Proof.
  intros Hs.
  assert (Hk : key_eqb (key_of sj0) (key_of sj0) = true)
    by (apply key_eqb_eq; reflexivity).
  induction parts as [| p l IH]; [reflexivity |]. cbn [filter].
  destruct (sj_id sj0 =? sjp_job_id p)%string; cbn [andb map filter]; [| exact IH].
  unfold where_undone at 1. cbn [fst snd]. rewrite Hs, String.eqb_refl. cbn [andb].
  destruct (sjp_status p =? "undone")%string; cbn [filter fst map]; [| exact IH].
  rewrite Hk. f_equal. exact IH.
Qed.

(** With [id] a key of [scrape_jobs], the group of an undone job holds its
    undone parts, each once. *)
Lemma json_agg_unique (d : DB) (sj0 : scrape_jobs_row) :
  NoDup (map sj_id (scrape_jobs d)) ->
  In sj0 (scrape_jobs d) ->
  sj_status sj0 = "undone" ->
  json_agg (key_of sj0) (undone_rows d) = undone_parts_of d (sj_id sj0).
Proof.
  intros Hnd Hin Hs. unfold json_agg, undone_rows, undone_parts_of, join_rows.
  assert (Hseg : forall js,
             NoDup (map sj_id js) -> In sj0 js ->
             filter (fun r => key_eqb (key_of (fst r)) (key_of sj0))
                    (filter where_undone
                            (flat_map
                               (fun sj =>
                                  map (fun sjp => (sj, sjp))
                                      (filter (fun sjp => (sj_id sj =? sjp_job_id sjp)%string)
                                              (scrape_job_parts d)))
                               js))
             = map (fun sjp => (sj0, sjp))
                   (filter (fun sjp => (sj_id sj0 =? sjp_job_id sjp)%string
                                       && (sjp_status sjp =? "undone")%string)
                           (scrape_job_parts d))).
  { induction js as [| a js IH]; intros Hnd' Hin'; [contradiction |].
    cbn in Hnd'. apply NoDup_cons_iff in Hnd'. destruct Hnd' as [Ha Hnd'].
    cbn [flat_map]. rewrite !filter_app.
    destruct Hin' as [-> | Hin'].
    - rewrite (own_segment sj0 _ Hs).
      match goal with |- (_ ++ ?X)%list = _ => assert (Hnil : X = []) end.
      { apply filter_none.
        intros [b p] Hbp. apply filter_In in Hbp. destruct Hbp as [Hbp _].
        apply in_flat_map in Hbp. destruct Hbp as (b' & Hb' & Hbp).
        apply in_map_iff in Hbp. destruct Hbp as (p' & Heq & _). injection Heq as -> ->.
        cbn [fst]. apply other_key. intros Hid. apply Ha. rewrite <- Hid.
        apply in_map. exact Hb'. }
      rewrite Hnil. apply app_nil_r.
    - rewrite (IH Hnd' Hin').
      match goal with |- (?X ++ _)%list = _ => assert (Hnil : X = []) end.
      { apply filter_none.
        intros [b p] Hbp. apply filter_In in Hbp. destruct Hbp as [Hbp _].
        apply in_map_iff in Hbp. destruct Hbp as (p' & Heq & _). injection Heq as -> ->.
        cbn [fst]. apply other_key. intros Hid. apply Ha. rewrite Hid.
        apply in_map. exact Hin'. }
      rewrite Hnil. reflexivity. }
  rewrite (Hseg _ Hnd Hin), map_map. reflexivity.
Qed.

(** X14.  When [id] is a key of [scrape_jobs] (no two rows share one), the
    query returns each job at most once, and the [job_parts] of its row are
    the undone parts of that job, each exactly once: the batch has no job
    twice, and no part of a job is sent twice or left out. *)
Theorem X14_rows_under_a_key (d : DB) :
  NoDup (map sj_id (scrape_jobs d)) ->
  NoDup (map ur_job_id (get_undone_scrape_jobs d))
  /\ forall row,
      In row (get_undone_scrape_jobs d) ->
      Permutation (ur_job_parts row) (undone_parts_of d (ur_job_id row)).
Proof.
  intros Hnd.
  assert (Hsource : forall row,
             In row (get_undone_scrape_jobs d) ->
             exists sj, In sj (scrape_jobs d) /\ sj_status sj = "undone"
                        /\ key_of sj = row_key row).
  { intros row Hrow.
    assert (Hkey : In (row_key row) (map row_key (get_undone_scrape_jobs d)))
      by (apply in_map; exact Hrow).
    apply returned_keys_rows in Hkey. destruct Hkey as (sj & sjp & Hin & Hk).
    apply undone_rows_spec in Hin. exists sj. tauto. }
  split.
  - assert (Hkeys : NoDup (map row_key (get_undone_scrape_jobs d))).
    { unfold get_undone_scrape_jobs. eapply Permutation_NoDup.
      - symmetry. apply Permutation_map. apply order_by_created_at_perm.
      - rewrite group_by_keys. apply distinct_keys_NoDup. }
    assert (Hinj : forall r1 r2,
               In r1 (get_undone_scrape_jobs d) -> In r2 (get_undone_scrape_jobs d) ->
               ur_job_id r1 = ur_job_id r2 -> row_key r1 = row_key r2).
    { intros r1 r2 H1 H2 Hid.
      destruct (Hsource r1 H1) as (s1 & Hs1 & _ & Hk1).
      destruct (Hsource r2 H2) as (s2 & Hs2 & _ & Hk2).
      rewrite <- Hk1, <- Hk2. f_equal.
      apply (unique_by_id _ s1 s2 Hnd Hs1 Hs2).
      rewrite (key_of_id _ _ Hk1), (key_of_id _ _ Hk2). exact Hid. }
    revert Hkeys Hinj. generalize (get_undone_scrape_jobs d).
    induction l as [| r l IH]; intros Hkeys Hinj; cbn; [constructor |].
    cbn in Hkeys. apply NoDup_cons_iff in Hkeys. destruct Hkeys as [Hr Hkeys].
    constructor.
    + intros Hin. apply in_map_iff in Hin. destruct Hin as (r' & Hid & Hr').
      apply Hr. rewrite (Hinj r r' (or_introl eq_refl) (or_intror Hr') (eq_sym Hid)).
      apply in_map. exact Hr'.
    + apply IH; [exact Hkeys |]. intros r1 r2 H1 H2. apply Hinj; right; assumption.
  - intros row Hrow. destruct (Hsource row Hrow) as (sj & Hsj & Hs & Hk).
    unfold get_undone_scrape_jobs in Hrow.
    apply (Permutation_in _ (order_by_created_at_perm _)) in Hrow.
    rewrite (group_by_parts _ row Hrow), <- Hk.
    fold (undone_rows d). rewrite (json_agg_unique d sj Hnd Hsj Hs).
    replace (ur_job_id row) with (sj_id sj); [reflexivity |].
    rewrite (key_of_id _ _ Hk). reflexivity.
Qed.

Lemma X14_witness :
  NoDup (map sj_id (scrape_jobs db_half_done))
  /\ NoDup (map ur_job_id (get_undone_scrape_jobs db_half_done))
  /\ forall row,
      In row (get_undone_scrape_jobs db_half_done) ->
      Permutation (ur_job_parts row) (undone_parts_of db_half_done (ur_job_id row)).
Proof.
  assert (Hnd : NoDup (map sj_id (scrape_jobs db_half_done))).
  { cbn. constructor; [intros [H | [H | []]]; discriminate H |].
    constructor; [intros [H | []]; discriminate H |].
    constructor; [intros [] | constructor]. }
  split; [exact Hnd |].
  exact (X14_rows_under_a_key db_half_done Hnd).
Defined.

(* ------------------------------------------------------------------ *)
(** * Marking twice *)

Lemma update_jobs_status_twice (s : string) (id : uuid) (d : DB) :
  update_jobs_status s id (update_jobs_status s id d) = update_jobs_status s id d.
Proof.
  unfold update_jobs_status. cbn [scrape_jobs scrape_job_parts]. f_equal.
  rewrite map_map. apply map_ext. intros a.
  destruct (sj_id a =? id)%string eqn:E; cbn; rewrite E; reflexivity.
Qed.

Lemma update_parts_status_twice (s : string) (id : uuid) (d : DB) :
  update_parts_status s id (update_parts_status s id d) = update_parts_status s id d.
Proof.
  unfold update_parts_status. cbn [scrape_jobs scrape_job_parts]. f_equal.
  rewrite map_map. apply map_ext. intros a.
  destruct (sjp_job_id a =? id)%string eqn:E; cbn; rewrite E; reflexivity.
Qed.

(** X15.  The handler's updates can be repeated without harm.  Either of
    its two filtered updates sent twice leaves the store as sent once; the
    two reach different relations, so their order does not matter; marking a
    job a second time - the same job dispatched again, in this pass or in
    another - leaves the store exactly as the first marking left it; and
    marking a job whose rows and parts are all "ongoing" already changes
    nothing at all. *)
Theorem X15_marking_is_idempotent (id : uuid) (d : DB) :
  update_jobs_status "ongoing" id (update_jobs_status "ongoing" id d)
  = update_jobs_status "ongoing" id d
  /\ update_parts_status "ongoing" id (update_parts_status "ongoing" id d)
     = update_parts_status "ongoing" id d
  /\ update_parts_status "ongoing" id (update_jobs_status "ongoing" id d)
     = update_jobs_status "ongoing" id (update_parts_status "ongoing" id d)
  /\ mark_ongoing id (mark_ongoing id d) = mark_ongoing id d
  /\ ((forall sj, In sj (scrape_jobs d) -> sj_id sj = id -> sj_status sj = "ongoing") ->
      (forall sjp, In sjp (scrape_job_parts d) -> sjp_job_id sjp = id ->
                   sjp_status sjp = "ongoing") ->
      mark_ongoing id d = d).
Proof.
  split; [| split; [| split; [| split]]].
  - apply update_jobs_status_twice.
  - apply update_parts_status_twice.
  - reflexivity.
  - unfold mark_ongoing.
    change (update_jobs_status "ongoing" id
              (update_parts_status "ongoing" id (update_jobs_status "ongoing" id d)))
      with (update_parts_status "ongoing" id
              (update_jobs_status "ongoing" id (update_jobs_status "ongoing" id d))).
    rewrite update_jobs_status_twice, update_parts_status_twice. reflexivity.
  - intros Hjobs Hparts. unfold mark_ongoing, update_parts_status, update_jobs_status.
    cbn [scrape_jobs scrape_job_parts]. destruct d as [js ps]. cbn in *. f_equal.
    + rewrite <- (map_id js) at 2. apply map_ext_in. intros a Ha.
      destruct (sj_id a =? id)%string eqn:E; [| reflexivity].
      apply String.eqb_eq in E. specialize (Hjobs a Ha E).
      destruct a. cbn in *. subst. reflexivity.
    + rewrite <- (map_id ps) at 2. apply map_ext_in. intros a Ha.
      destruct (sjp_job_id a =? id)%string eqn:E; [| reflexivity].
      apply String.eqb_eq in E. specialize (Hparts a Ha E).
      destruct a. cbn in *. subst. reflexivity.
Qed.

(** The store the pass over the stored batch leaves has job-x fully marked:
    marking it again changes nothing. *)
Lemma X15_witness :
  mark_ongoing "job-x" (db (snd (serve world_stored post (boot db_half_done))))
  = db (snd (serve world_stored post (boot db_half_done)))
  /\ mark_ongoing "job-x" (mark_ongoing "job-x" db_half_done)
     = mark_ongoing "job-x" db_half_done.
Proof.
  split.
  - apply (proj2 (proj2 (proj2 (proj2 (X15_marking_is_idempotent
                                         "job-x"
                                         (db (snd (serve world_stored post
                                                         (boot db_half_done))))))))).
    + intros sj Hin Hid. vm_compute in Hin.
      destruct Hin as [<- | [<- | [<- | []]]]; [reflexivity | discriminate Hid ..].
    + intros sjp Hin Hid. vm_compute in Hin.
      destruct Hin as [<- | [<- | [<- | []]]];
        [reflexivity | reflexivity | discriminate Hid].
  - exact (proj1 (proj2 (proj2 (proj2 (X15_marking_is_idempotent "job-x"
                                                                 db_half_done))))).
Defined.

(* ------------------------------------------------------------------ *)
(** * The order of the outcomes, and a pass that goes all the way *)

(** What the loop adds to the two arrays, in the order of the batch. *)
Lemma process_jobs_woven (w : World) (u : option string) (jobs : list ScrapeJob) :
  forall m, exists m' ps fs,
    process_jobs w u jobs m = (inr tt, m')
    /\ processedJobs m' = (processedJobs m ++ ps)%list
    /\ failedJobs m' = (failedJobs m ++ fs)%list
    /\ woven (map pe_job_id ps) (map fe_job_id fs) (map job_id jobs).
Proof.
  induction jobs as [| job rest IH]; intros m.
  - exists m, [], []. cbn. rewrite !app_nil_r. repeat split. constructor.
  - destruct (job_iteration_returns w u job m) as (m1 & Hrun & Hone).
    destruct (IH m1) as (m' & ps & fs & Hrest & Hp & Hf & Hw).
    rewrite (process_jobs_cons w u job rest m m1 Hrun).
    destruct Hone as [p Hp1 Hf1 Hid | f Hp1 Hf1 Hid].
    + exists m', (p :: ps), fs. rewrite Hrest, Hp, Hf, Hp1, Hf1, <- app_assoc.
      cbn. rewrite Hid. repeat split. constructor. exact Hw.
    + exists m', ps, (f :: fs). rewrite Hrest, Hp, Hf, Hp1, Hf1, <- app_assoc.
      cbn. rewrite Hid. repeat split. constructor. exact Hw.
Qed.

(** X16.  The two lists of a summary keep the order of the batch: read
    together, [processed_jobs] and [failed_jobs] are the batch's job
    identifiers dealt into two piles without reordering - each job's entry
    comes after the entries of all jobs before it that ended on the same
    side. *)
Theorem X16_outcomes_keep_the_batch_order (w : World) (req : Request) (m : Machine)
        (job : ScrapeJob) (rest : list ScrapeJob) :
  req_method req <> "OPTIONS" ->
  client_ready w ->
  rpc_answer w (trace m) "get_undone_scrape_jobs"
  = inr (mkRpcAnswer (Some (job :: rest)) None) ->
  exists msg ps fs ts,
    resp_body (fst (serve w req m)) = BodySummary true msg ps fs (S (length rest)) ts
    /\ woven (map pe_job_id ps) (map fe_job_id fs) (map job_id (job :: rest)).
Proof.
  intros Hreq Hready Hrpc. rewrite (serve_runs_pass w req m Hreq).
  destruct (process_jobs_woven w (env_get w "REDIS_URL") (job :: rest) (at_loop m))
    as (m' & ps & fs & Hloop & Hps & Hfs & Hw).
  rewrite (pass_batch w m m' job rest Hready Hrpc Hloop).
  cbn [at_loop processedJobs failedJobs app] in Hps, Hfs.
  unfold summary_response. rewrite Hps, Hfs. cbn [fst resp_body].
  eexists _, ps, fs, _. split; [reflexivity | exact Hw].
Qed.

Lemma X16_witness :
  client_ready world_x_throws
  /\ exists msg ps fs ts,
      resp_body (fst (serve world_x_throws post (boot empty_db)))
      = BodySummary true msg ps fs 2 ts
      /\ woven (map pe_job_id ps) (map fe_job_id fs) ["job-x"; "job-y"].
Proof.
  split; [repeat split |].
  apply (X16_outcomes_keep_the_batch_order world_x_throws post (boot empty_db)
                                           jobX [jobY]).
  - discriminate.
  - repeat split.
  - reflexivity.
Defined.

(** Rows that are ongoing stay ongoing under marking. *)
Lemma ongoing_stays (ids : list string) (d d' : DB) (id : uuid) :
  marked_only ids d d' ->
  (forall sj, In sj (scrape_jobs d) -> sj_id sj = id -> sj_status sj = "ongoing") ->
  forall sj, In sj (scrape_jobs d') -> sj_id sj = id -> sj_status sj = "ongoing".
Proof.
  intros [Hj _] Hold sj Hin Hid.
  destruct (Forall2_In_r _ _ _ Hj sj Hin) as (a & Ha & [-> | [-> _]]).
  - exact (Hold a Ha Hid).
  - reflexivity.
Qed.

(** In a world that accepts everything, a turn marks its job and records a
    success. *)
Lemma turn_in_accepting_world (w : World) (u : option string) (job : ScrapeJob)
      (m : Machine) :
  always_accepts w ->
  exists v,
    job_iteration w u job m
    = (inr tt,
       mkMachine (mark_ongoing (job_id job) (db m))
                 (trace m ++ [ev_submit u job; ev_mark_job job; ev_mark_parts job])
                 (processedJobs m ++ [mkProcessed (job_id job) v])
                 (failedJobs m)).
Proof.
  intros [Hfetch Hupd].
  destruct (Hfetch (trace m) (submit_url u) (jobData job))
    as (r & v & flag & H & Hok & Hv & Hflag & Htruthy).
  exists v.
  exact (iteration_job_marked w u job m r v flag (inr None) H Hok Hv Hflag Htruthy
           (Hupd _ _ _ _ _) (Hupd _ _ _ _ _)).
Qed.

Lemma loop_in_accepting_world (w : World) (u : option string)
      (jobs : list ScrapeJob) :
  always_accepts w ->
  forall m, exists m' ps,
    process_jobs w u jobs m = (inr tt, m')
    /\ processedJobs m' = (processedJobs m ++ ps)%list
    /\ map pe_job_id ps = map job_id jobs
    /\ failedJobs m' = failedJobs m
    /\ (forall job sj,
           In job jobs -> In sj (scrape_jobs (db m')) -> sj_id sj = job_id job ->
           sj_status sj = "ongoing").
Proof.
  intros Hw. induction jobs as [| job rest IH]; intros m.
  - exists m, []. cbn. rewrite app_nil_r. repeat split. intros job sj [].
  - destruct (turn_in_accepting_world w u job m Hw) as (v & Hturn).
    rewrite (process_jobs_cons w u job rest m _ Hturn).
    match type of Hturn with _ = (_, ?m1) =>
      destruct (IH m1) as (m' & ps & Hrest & Hps & Hids & Hfs & Hmarked)
    end.
    cbn [processedJobs failedJobs] in Hps, Hfs.
    exists m', (mkProcessed (job_id job) v :: ps).
    split; [exact Hrest |]. split; [rewrite Hps, <- app_assoc; reflexivity |].
    split; [cbn; rewrite Hids; reflexivity |]. split; [exact Hfs |].
    intros j sj [<- | Hj] Hin Hid; [| exact (Hmarked j sj Hj Hin Hid)].
    refine (ongoing_stays _ _ _ _ (process_jobs_marks w u rest _ _ Hrest) _ sj Hin Hid).
    cbn [db]. unfold mark_ongoing. cbn [update_parts_status scrape_jobs].
    exact (proj1 (update_jobs_status_reaches "ongoing" (job_id job) (db m))).
Qed.

(** X17.  A pass that goes all the way empties the queue.  If the executor
    takes every job and every update goes through, and the batch holds
    every job the query returns on the store as it stands, then the summary
    lists every job of the batch as processed, in order, and none as failed,
    and on the store the pass leaves the query returns nothing. *)
Theorem X17_a_clean_pass_drains_the_queue (w : World) (req : Request) (m : Machine)
        (job : ScrapeJob) (rest : list ScrapeJob) :
  req_method req <> "OPTIONS" ->
  client_ready w ->
  always_accepts w ->
  rpc_answer w (trace m) "get_undone_scrape_jobs"
  = inr (mkRpcAnswer (Some (job :: rest)) None) ->
  (forall row, In row (get_undone_scrape_jobs (db m)) ->
               In (ur_job_id row) (map job_id (job :: rest))) ->
  (exists msg ps ts,
      resp_body (fst (serve w req m)) = BodySummary true msg ps [] (S (length rest)) ts
      /\ map pe_job_id ps = map job_id (job :: rest))
  /\ get_undone_scrape_jobs (db (snd (serve w req m))) = [].
Proof.
  intros Hreq Hready Hw Hrpc Hcover.
  pose proof (serve_marks_only w req m) as Hmarks. revert Hmarks.
  rewrite (serve_runs_pass w req m Hreq).
  destruct (loop_in_accepting_world w (env_get w "REDIS_URL") (job :: rest) Hw (at_loop m))
    as (m' & ps & Hloop & Hps & Hids & Hfs & Hmarked).
  rewrite (pass_batch w m m' job rest Hready Hrpc Hloop). cbn [fst snd].
  cbn [at_loop processedJobs failedJobs app] in Hps, Hfs. intros Hmarks. split.
  - unfold summary_response. rewrite Hps, Hfs. cbn [resp_body].
    eexists _, ps, _. split; [reflexivity | exact Hids].
  - destruct (get_undone_scrape_jobs (db m')) as [| row others] eqn:E;
      [reflexivity | exfalso].
    assert (Hrow : In row (get_undone_scrape_jobs (db m')))
      by (rewrite E; left; reflexivity).
    assert (Hkey : In (row_key row) (map row_key (get_undone_scrape_jobs (db m'))))
      by (apply in_map; exact Hrow).
    apply returned_keys_rows in Hkey. destruct Hkey as (sj & sjp & Hin & Hk).
    assert (Hbefore : In (row_key row) (map row_key (get_undone_scrape_jobs (db m)))).
    { apply returned_keys_rows. exists sj, sjp. split; [| exact Hk].
      exact (undone_rows_shrink _ _ _ sj sjp Hmarks Hin). }
    apply in_map_iff in Hbefore. destruct Hbefore as (row0 & Hk0 & Hrow0).
    specialize (Hcover row0 Hrow0).
    assert (Hsame : ur_job_id row0 = ur_job_id row).
    { unfold row_key in Hk0. injection Hk0 as H _ _ _. exact H. }
    rewrite Hsame in Hcover. apply in_map_iff in Hcover.
    destruct Hcover as (j & Hj & Hjin).
    apply (not_undone_not_returned (db m') (job_id j)) with (row := row);
      [| exact Hrow | symmetry; exact Hj].
    intros sj' Hsj' Hid'. rewrite (Hmarked j sj' Hjin Hsj' Hid'). discriminate.
Qed.

Lemma X17_witness :
  client_ready world_stored
  /\ always_accepts world_stored
  /\ (exists msg ps ts,
         resp_body (fst (serve world_stored post (boot db_half_done)))
         = BodySummary true msg ps [] 2 ts
         /\ map pe_job_id ps = ["job-x"; "job-y"])
  /\ get_undone_scrape_jobs (db (snd (serve world_stored post (boot db_half_done))))
     = [].
Proof.
  assert (Hw : always_accepts world_stored).
  { split.
    - intros t url body.
      exists accepted, (JObj [("success", JBool true); ("queued", JNum 1)]),
        (Some (JBool true)).
      repeat split.
    - intros t table status column value. reflexivity. }
  split; [repeat split |]. split; [exact Hw |].
  apply (X17_a_clean_pass_drains_the_queue
           world_stored post (boot db_half_done)
           fetched_jobX
           [mkScrapeJob "job-y" "profile-2" "google_maps" "2024-05-01T11:00:00+00:00"
              [mkJobPart "part-y1" None (Some "dentist") (Some "Leeds") None
                         (Some "UK")]]).
  - discriminate.
  - repeat split.
  - exact Hw.
  - reflexivity.
  - intros row Hrow. vm_compute in Hrow.
    destruct Hrow as [<- | [<- | []]]; [left | right; left]; reflexivity.
Defined.
